(** * rclcpp ClientBase: waiting for a service server

    A shallow embedding of [rclcpp/src/rclcpp/client.cpp]: the deleter of the
    shared [rcl_client_t] handle installed by the constructor,
    [ClientBase::service_is_ready] and
    [ClientBase::wait_for_service_nanoseconds].

    The functions talk to collaborators that live outside the file (the
    steady clock, the node graph, rcl, [rclcpp::ok]).  Every such call is
    recorded in a trace, and its answer is supplied by an oracle that sees
    the calls made so far, so a theorem quantified over the oracle holds for
    every behaviour of the collaborators. *)

From Stdlib Require Import ZArith List Bool String Lia.
Import ListNotations.
Local Open Scope Z_scope.

(** ** Data *)

(** [rcl_ret_t] is a C [int]; [RCL_RET_OK] is 0 in rcl/types.h. *)
Definition rcl_ret_t := Z.
Definition RCL_RET_OK : rcl_ret_t := 0.

(** [std::chrono::nanoseconds] and the readings of [std::chrono::steady_clock]
    have a signed 64-bit representation. *)
Definition nanoseconds := Z.

Definition INT64_MIN : Z := - 2 ^ 63.
Definition INT64_MAX : Z := 2 ^ 63 - 1.

Definition in_int64 (z : Z) : bool := (INT64_MIN <=? z) && (z <=? INT64_MAX).

(** Subtraction of two durations (or time points).  Signed overflow is
    undefined in C++, so the difference exists only when it is
    representable. *)
Definition chrono_sub (a b : nanoseconds) : option nanoseconds :=
  if in_int64 (a - b) then Some (a - b) else None.

(** The exceptions the file can raise.  [RCLError ret prefix] stands for what
    [throw_from_rcl_error (ret, prefix)] throws. *)
Inductive exn : Type :=
| InvalidNodeError
| RCLError (ret : rcl_ret_t) (prefix : string).

(** One call to a collaborator, with the answer it gave. *)
Inductive call : Type :=
| Now (t : nanoseconds)                                (* steady_clock::now() *)
| Lock (alive : bool)                                  (* node_graph_.lock() *)
| GetGraphEvent                                        (* node_ptr->get_graph_event() *)
| ServerIsAvailable (ret : rcl_ret_t) (is_ready : bool)(* rcl_service_server_is_available *)
| Ok (b : bool)                                        (* rclcpp::ok() *)
| WaitForGraphChange (d : nanoseconds)                 (* node_ptr->wait_for_graph_change(event, d) *)
| CheckAndClear                                        (* event->check_and_clear() *)
| ClientFini (ret : rcl_ret_t)                         (* rcl_client_fini(client, node) *)
| LogError (name msg : string)                         (* RCUTILS_LOG_ERROR_NAMED *)
| ResetError                                           (* rcl_reset_error() *)
| DeleteClient.                                        (* delete client *)

Definition trace := list call.

(** The collaborators.  Each answer may depend on everything that was called
    before (in call order). *)
Record Env : Type := {
  steady_clock_now : trace -> nanoseconds;
  node_graph_lock : trace -> bool;
  rcl_service_server_is_available : trace -> rcl_ret_t * bool;
  rclcpp_ok : trace -> bool;
  rcl_client_fini : trace -> rcl_ret_t;
  rcl_get_error_string_safe : trace -> string
}.

(** How a computation ends. *)
Inductive outcome (A : Type) : Type :=
| Returned (a : A)
| Thrown (e : exn)
| Undefined          (* undefined behaviour: signed overflow in the chrono
                        arithmetic, a read through a dangling [this] *)
| OutOfFuel.         (* the do-while loop is still running *)

Arguments Returned {A} a.
Arguments Thrown {A} e.
Arguments Undefined {A}.
Arguments OutOfFuel {A}.

(** ** The monad: read the calls made so far, emit the new ones *)

Definition M (A : Type) : Type := trace -> outcome A * trace.

Definition ret {A} (a : A) : M A := fun _ => (Returned a, []).

Definition bind {A B} (m : M A) (f : A -> M B) : M B :=
  fun h =>
    match m h with
    | (Returned a, es) => let (o, es') := f a (h ++ es) in (o, es ++ es')
    | (Thrown e, es) => (Thrown e, es)
    | (Undefined, es) => (Undefined, es)
    | (OutOfFuel, es) => (OutOfFuel, es)
    end.

Definition throw {A} (e : exn) : M A := fun _ => (Thrown e, []).
Definition out_of_fuel {A} : M A := fun _ => (OutOfFuel, []).

(** A collaborator call: ask the oracle, record the call. *)
Definition ask {A} (answer : trace -> A) (record : A -> call) : M A :=
  fun h => (Returned (answer h), [record (answer h)]).

Definition tell (c : call) : M unit := fun _ => (Returned tt, [c]).

Definition defined {A} (o : option A) : M A :=
  fun _ => match o with Some a => (Returned a, []) | None => (Undefined, []) end.

Definition undefined_behaviour {A} : M A := fun _ => (Undefined, []).

(** Modelled from the spec: [NodeGraphInterface::get_graph_event],
    [NodeGraphInterface::wait_for_graph_change] and [Event::check_and_clear]
    are declared outside this file; the spec gives them as operations that
    return nothing this file uses ([subscribe], [wait (token, duration) -> void],
    [clear (token) -> void]).  What they do to the world shows in the later
    answers of the oracle, which sees them in its history.  The boolean
    that [check_and_clear] returns is dropped by its caller (line 122). *)
Definition get_graph_event : M unit := tell GetGraphEvent.
Definition wait_for_graph_change (d : nanoseconds) : M unit := tell (WaitForGraphChange d).
Definition check_and_clear : M unit := tell CheckAndClear.

(** Modelled from the spec: what [NodeGraphInterface::wait_for_graph_change]
    does with the duration it is given is decided outside this file.  The
    spec gives [wait (token, duration)] as blocking "up to [duration] or
    until a membership-change notification is observed, whichever first",
    returning immediately for a zero duration, and it has a negative
    [time_to_wait] "treated as unbounded for the purpose of the wait call".
    [blocked_for d signal] is how long such a wait blocks when the next
    notification comes after [signal] nanoseconds ([None]: it never comes);
    the result [None] is a wait that never ends. *)
Definition blocked_for (d : nanoseconds) (signal : option nanoseconds)
    : option nanoseconds :=
  if d <? 0 then signal
  else match signal with
       | Some s => Some (Z.min d s)
       | None => Some d
       end.

(** Modelled from the spec: [throw_from_rcl_error] is declared in
    rclcpp/exceptions.hpp; it always throws, and the exception carries the
    return code and the prefix (the spec's DiscoveryQueryError). *)
Definition throw_from_rcl_error {A} (r : rcl_ret_t) (prefix : string) : M A :=
  throw (RCLError r prefix).

Declare Scope cpp_scope.
Delimit Scope cpp_scope with cpp.
Notation "x <- c1 ;; c2" := (bind c1 (fun x => c2))
  (at level 100, c1 at next level, right associativity) : cpp_scope.
Notation "c1 ;; c2" := (bind c1 (fun _ => c2))
  (at level 100, right associativity) : cpp_scope.
Local Open Scope cpp_scope.

(** ** The program *)

Section Client.

Variable env : Env.

(** The deleter given to [client_handle_] in the constructor (lines 45-54).
    The lambda captures [this] (the [[ = ]] of line 45) and reads
    [node_handle_] through it for the argument of [rcl_client_fini]
    (line 47).  [get_client_handle] hands out copies of the shared pointer,
    so the last owner may let go after the [ClientBase] is gone;
    [this_alive] says whether the captured object still exists when the
    deleter runs.  If it does not, the read is undefined behaviour. *)
Definition client_handle_deleter (this_alive : bool) : M unit :=
  if negb this_alive then undefined_behaviour else
  r <- ask (rcl_client_fini env) ClientFini ;;
  if negb (r =? RCL_RET_OK) then
    msg <- ask (rcl_get_error_string_safe env) (fun s =>
             LogError "rclcpp" ("Error in destruction of rcl client handle: " ++ s)) ;;
    tell ResetError ;;
    tell DeleteClient
  else ret tt.

(** [ClientBase::service_is_ready] (lines 78-88). *)
Definition service_is_ready : M bool :=
  r <- ask (rcl_service_server_is_available env)
           (fun r => ServerIsAvailable (fst r) (snd r)) ;;
  if negb (fst r =? RCL_RET_OK) then
    throw_from_rcl_error (fst r) "rcl_service_server_is_available failed"
  else ret (snd r).

(** The do-while loop of [wait_for_service_nanoseconds] (lines 117-132);
    one unit of fuel per execution of the body. *)
Fixpoint do_while (fuel : nat) (timeout start time_to_wait : nanoseconds) : M bool :=
  match fuel with
  | O => out_of_fuel
  | S fuel' =>
      ok <- ask (rclcpp_ok env) Ok ;;
      if negb ok then ret false else
      wait_for_graph_change time_to_wait ;;
      check_and_clear ;;
      ready <- service_is_ready ;;
      if ready then ret true else
      now <- ask (steady_clock_now env) Now ;;
      elapsed <- defined (chrono_sub now start) ;;
      time_to_wait' <- defined (chrono_sub timeout elapsed) ;;
      if (time_to_wait' >? 0) || (timeout <? 0)
      then do_while fuel' timeout start time_to_wait'
      else ret false
  end.

(** [ClientBase::wait_for_service_nanoseconds] (lines 90-134). *)
Definition wait_for_service_nanoseconds (fuel : nat) (timeout : nanoseconds) : M bool :=
  start <- ask (steady_clock_now env) Now ;;
  node_ptr <- ask (node_graph_lock env) Lock ;;
  if negb node_ptr then throw InvalidNodeError else
  get_graph_event ;;
  ready <- service_is_ready ;;
  if ready then ret true else
  if timeout =? 0 then ret false else
  now <- ask (steady_clock_now env) Now ;;
  elapsed <- defined (chrono_sub now start) ;;
  time_to_wait <- defined (chrono_sub timeout elapsed) ;;
  let time_to_wait :=
    if (timeout >? 0) && (time_to_wait <? 0) then 0 else time_to_wait in
  do_while fuel timeout start time_to_wait.

End Client.

(** A call starts with no history: whatever happened before it is part of
    the oracle. *)
Definition run {A} (m : M A) : outcome A * trace := m [].

(** ** Reading traces *)

Definition is_now (c : call) : bool := match c with Now _ => true | _ => false end.
Definition is_check (c : call) : bool :=
  match c with ServerIsAvailable _ _ => true | _ => false end.
Definition is_poll (c : call) : bool := match c with Ok _ => true | _ => false end.
Definition is_wait (c : call) : bool :=
  match c with WaitForGraphChange _ => true | _ => false end.
Definition is_delete (c : call) : bool := match c with DeleteClient => true | _ => false end.
Definition is_go (c : call) : bool := match c with Ok true => true | _ => false end.

Definition count (p : call -> bool) (tr : trace) : nat := List.length (filter p tr).

(** ** Example worlds *)

(** A world that answers by the number of earlier calls of the same kind:
    the [k]-th clock reading is [clock k], and so on. *)
Definition scripted (clock : nat -> nanoseconds) (alive : bool)
    (avail : nat -> rcl_ret_t * bool) (ok : nat -> bool) (fini : rcl_ret_t) : Env :=
  {| steady_clock_now := fun h => clock (count is_now h);
     node_graph_lock := fun _ => alive;
     rcl_service_server_is_available := fun h => avail (count is_check h);
     rclcpp_ok := fun h => ok (count is_poll h);
     rcl_client_fini := fun _ => fini;
     rcl_get_error_string_safe := fun _ => "rcl error"%string |}.

(** A world with a simulated clock: every call costs [tick] nanoseconds, a
    wait with a duration that is not negative blocks for all of it (no graph
    change arrives in time) and a wait with a negative duration is woken at
    once; the server appears at the [ready_at]-th query and the context is
    shut down at the [shutdown_at]-th poll. *)
Fixpoint sim_time (tick : nanoseconds) (h : trace) : nanoseconds :=
  match h with
  | [] => 0
  | WaitForGraphChange d :: h' => tick + Z.max 0 d + sim_time tick h'
  | _ :: h' => tick + sim_time tick h'
  end.

Definition simulated (tick : nanoseconds) (ready_at shutdown_at : nat) : Env :=
  {| steady_clock_now := fun h => sim_time tick h;
     node_graph_lock := fun _ => true;
     rcl_service_server_is_available :=
       fun h => (RCL_RET_OK, Nat.leb ready_at (count is_check h));
     rclcpp_ok := fun h => Nat.ltb (count is_poll h) shutdown_at;
     rcl_client_fini := fun _ => RCL_RET_OK;
     rcl_get_error_string_safe := fun _ => ""%string |}.

(** ** Conditions on the world at the time of a call *)

(** The first clock reading of a call ([start], line 93). *)
Definition start_of (env : Env) : nanoseconds := steady_clock_now env [].

(** [node_graph_.lock()] succeeds. *)
Definition node_alive (env : Env) : Prop :=
  node_graph_lock env [Now (start_of env)] = true.

(** The calls made before the immediate readiness check. *)
Definition before_check (env : Env) : trace :=
  [Now (start_of env); Lock true; GetGraphEvent].

(** The answer to the immediate readiness check (line 101). *)
Definition first_answer (env : Env) : rcl_ret_t * bool :=
  rcl_service_server_is_available env (before_check env).

Definition ready_at_call (env : Env) : Prop := first_answer env = (RCL_RET_OK, true).
Definition not_ready_at_call (env : Env) : Prop := first_answer env = (RCL_RET_OK, false).

(** The calls made up to the first computation of [time_to_wait] when the
    immediate check says "not ready". *)
Definition before_loop (env : Env) : trace :=
  before_check env ++
  [ServerIsAvailable RCL_RET_OK false;
   Now (steady_clock_now env (before_check env ++ [ServerIsAvailable RCL_RET_OK false]))].

(** [timeout - (now() - start)] as computed on line 110, before the clamp. *)
Definition first_budget (env : Env) (timeout : nanoseconds) : option nanoseconds :=
  match chrono_sub
          (steady_clock_now env (before_check env ++ [ServerIsAvailable RCL_RET_OK false]))
          (start_of env) with
  | Some elapsed => chrono_sub timeout elapsed
  | None => None
  end.

(** The server never appears and the query never fails. *)
Definition never_ready (env : Env) : Prop :=
  forall h, rcl_service_server_is_available env h = (RCL_RET_OK, false).

(** [std::chrono::steady_clock] is monotonic: a later reading is never smaller. *)
Definition steady_clock (env : Env) : Prop :=
  forall h h', steady_clock_now env h <= steady_clock_now env (h ++ h').

(** From the [k]-th poll on, [rclcpp::ok()] is false. *)
Definition shutdown_from (env : Env) (k : nat) : Prop :=
  forall h, (k <= count is_poll h)%nat -> rclcpp_ok env h = false.

(** The chrono arithmetic of a call with this timeout never overflows. *)
Definition chrono_in_range (env : Env) (timeout : nanoseconds) : Prop :=
  forall h,
    in_int64 (steady_clock_now env h - start_of env) = true /\
    in_int64 (timeout - (steady_clock_now env h - start_of env)) = true.

(** The most recent clock reading in a trace ([t0] if there is none). *)
Fixpoint latest_reading (tr : trace) (t0 : nanoseconds) : nanoseconds :=
  match tr with
  | [] => t0
  | Now t :: tr' => latest_reading tr' t
  | _ :: tr' => latest_reading tr' t0
  end.

(** Every wait is followed at once by the clearing of the event and a
    readiness query. *)
Fixpoint rechecked_after_each_wait (tr : trace) : Prop :=
  match tr with
  | [] => True
  | WaitForGraphChange _ :: tr' =>
      match tr' with
      | CheckAndClear :: ServerIsAvailable _ _ :: _ => True
      | _ => False
      end /\ rechecked_after_each_wait tr'
  | _ :: tr' => rechecked_after_each_wait tr'
  end.

(** A failed readiness query ends the trace, and the call ends by throwing
    what [throw_from_rcl_error] made of its return code. *)
Fixpoint stops_at_query_error (o : outcome bool) (tr : trace) : Prop :=
  match tr with
  | [] => True
  | ServerIsAvailable r _ :: tr' =>
      if r =? RCL_RET_OK then stops_at_query_error o tr'
      else tr' = [] /\ o = Thrown (RCLError r "rcl_service_server_is_available failed")
  | _ :: tr' => stops_at_query_error o tr'
  end.

(** ** The loop as a relation

    [loop_run env timeout start h ttw o es]: entered with the calls [h]
    behind it and [time_to_wait = ttw], the do-while loop makes the calls
    [es] and ends as [o].  One rule per way through the body. *)

Definition pass (ttw : nanoseconds) (r : rcl_ret_t) (b : bool) : trace :=
  [Ok true; WaitForGraphChange ttw; CheckAndClear; ServerIsAvailable r b].

Inductive loop_run (env : Env) (timeout start : nanoseconds) :
    trace -> nanoseconds -> outcome bool -> trace -> Prop :=
| loop_still_running h ttw :
    loop_run env timeout start h ttw OutOfFuel []
| loop_shutdown h ttw :
    rclcpp_ok env h = false ->
    loop_run env timeout start h ttw (Returned false) [Ok false]
| loop_query_error h ttw r b :
    rclcpp_ok env h = true ->
    rcl_service_server_is_available env
      (h ++ [Ok true; WaitForGraphChange ttw; CheckAndClear]) = (r, b) ->
    r <> RCL_RET_OK ->
    loop_run env timeout start h ttw
      (Thrown (RCLError r "rcl_service_server_is_available failed")) (pass ttw r b)
| loop_ready h ttw :
    rclcpp_ok env h = true ->
    rcl_service_server_is_available env
      (h ++ [Ok true; WaitForGraphChange ttw; CheckAndClear]) = (RCL_RET_OK, true) ->
    loop_run env timeout start h ttw (Returned true) (pass ttw RCL_RET_OK true)
| loop_overflow h ttw t :
    rclcpp_ok env h = true ->
    rcl_service_server_is_available env
      (h ++ [Ok true; WaitForGraphChange ttw; CheckAndClear]) = (RCL_RET_OK, false) ->
    t = steady_clock_now env (h ++ pass ttw RCL_RET_OK false) ->
    in_int64 (t - start) && in_int64 (timeout - (t - start)) = false ->
    loop_run env timeout start h ttw Undefined (pass ttw RCL_RET_OK false ++ [Now t])
| loop_out_of_time h ttw t :
    rclcpp_ok env h = true ->
    rcl_service_server_is_available env
      (h ++ [Ok true; WaitForGraphChange ttw; CheckAndClear]) = (RCL_RET_OK, false) ->
    t = steady_clock_now env (h ++ pass ttw RCL_RET_OK false) ->
    in_int64 (t - start) && in_int64 (timeout - (t - start)) = true ->
    timeout - (t - start) <= 0 -> 0 <= timeout ->
    loop_run env timeout start h ttw (Returned false) (pass ttw RCL_RET_OK false ++ [Now t])
| loop_again h ttw t o es :
    rclcpp_ok env h = true ->
    rcl_service_server_is_available env
      (h ++ [Ok true; WaitForGraphChange ttw; CheckAndClear]) = (RCL_RET_OK, false) ->
    t = steady_clock_now env (h ++ pass ttw RCL_RET_OK false) ->
    in_int64 (t - start) && in_int64 (timeout - (t - start)) = true ->
    0 < timeout - (t - start) \/ timeout < 0 ->
    loop_run env timeout start (h ++ pass ttw RCL_RET_OK false ++ [Now t])
      (timeout - (t - start)) o es ->
    loop_run env timeout start h ttw o (pass ttw RCL_RET_OK false ++ Now t :: es).

(** The clamp of lines 111-115. *)
Definition clamp (timeout time_to_wait : nanoseconds) : nanoseconds :=
  if (timeout >? 0) && (time_to_wait <? 0) then 0 else time_to_wait.

(** [call_run env timeout o tr]: a call of [wait_for_service_nanoseconds]
    makes the calls [tr] and ends as [o].  One rule per way to the loop. *)
Inductive call_run (env : Env) (timeout : nanoseconds) : outcome bool -> trace -> Prop :=
| call_stale :
    node_graph_lock env [Now (start_of env)] = false ->
    call_run env timeout (Thrown InvalidNodeError) [Now (start_of env); Lock false]
| call_query_error r b :
    node_alive env -> first_answer env = (r, b) -> r <> RCL_RET_OK ->
    call_run env timeout
      (Thrown (RCLError r "rcl_service_server_is_available failed"))
      (before_check env ++ [ServerIsAvailable r b])
| call_ready :
    node_alive env -> ready_at_call env ->
    call_run env timeout (Returned true)
      (before_check env ++ [ServerIsAvailable RCL_RET_OK true])
| call_probe :
    node_alive env -> not_ready_at_call env -> timeout = 0 ->
    call_run env timeout (Returned false)
      (before_check env ++ [ServerIsAvailable RCL_RET_OK false])
| call_overflow :
    node_alive env -> not_ready_at_call env -> timeout <> 0 ->
    first_budget env timeout = None ->
    call_run env timeout Undefined (before_loop env)
| call_loop d o es :
    node_alive env -> not_ready_at_call env -> timeout <> 0 ->
    first_budget env timeout = Some d ->
    loop_run env timeout (start_of env) (before_loop env) (clamp timeout d) o es ->
    call_run env timeout o (before_loop env ++ es).

(** Every wait is given [timeout - (now() - start)] for the clock reading
    [last] that precedes it, and that value is negative. *)
Fixpoint waits_unclamped (timeout start last : nanoseconds) (tr : trace) : Prop :=
  match tr with
  | [] => True
  | Now t :: tr' => waits_unclamped timeout start t tr'
  | WaitForGraphChange d :: tr' =>
      (d = timeout - (last - start) /\ d < 0) /\ waits_unclamped timeout start last tr'
  | _ :: tr' => waits_unclamped timeout start last tr'
  end.

(** A world whose clock advances 10 ns per reading and whose server appears
    at the third readiness query. *)
Definition slow_discovery : Env :=
  scripted (fun k => Z.of_nat k * 10) true
    (fun k => (RCL_RET_OK, Nat.leb 2 k)) (fun _ => true) RCL_RET_OK.

(** A world where the server never appears, the clock stops at 1000 ns and
    the context is shut down at the third poll. *)
Definition shut_down_while_waiting : Env :=
  scripted (fun k => Z.of_nat (Nat.min k 100) * 10) true
    (fun _ => (RCL_RET_OK, false)) (fun k => Nat.ltb k 2) RCL_RET_OK.

(** ** Further conditions and trace properties *)

Definition is_lock (c : call) : bool := match c with Lock _ => true | _ => false end.
Definition is_get_event (c : call) : bool :=
  match c with GetGraphEvent => true | _ => false end.

(** [rclcpp::ok()] answers true whenever it is asked. *)
Definition never_shut_down (env : Env) : Prop := forall h, rclcpp_ok env h = true.

(** The server first answers "ready" at query number [k] (the immediate
    query is number 0), and no query fails. *)
Definition ready_from (env : Env) (k : nat) : Prop :=
  forall h,
    rcl_service_server_is_available env h = (RCL_RET_OK, Nat.leb k (count is_check h)).

(** Every call takes at least [tick] nanoseconds of the steady clock. *)
Definition ticking (env : Env) (tick : nanoseconds) : Prop :=
  forall h c h', steady_clock_now env h + tick <= steady_clock_now env (h ++ c :: h').

(** No graph change arrives: a wait blocks for the whole duration it is given. *)
Definition waits_block (env : Env) : Prop :=
  forall h pre d post,
    0 <= d ->
    steady_clock_now env h + d <=
    steady_clock_now env (h ++ pre ++ WaitForGraphChange d :: post).

(** Every wait is given what is left of the timeout at the clock reading
    [last] that precedes it, or zero when nothing is left. *)
Fixpoint waits_within (timeout start last : nanoseconds) (tr : trace) : Prop :=
  match tr with
  | [] => True
  | Now t :: tr' => waits_within timeout start t tr'
  | WaitForGraphChange d :: tr' =>
      d = Z.max 0 (timeout - (last - start)) /\ waits_within timeout start last tr'
  | _ :: tr' => waits_within timeout start last tr'
  end.

(** A successful readiness query that answers "ready" ends the trace, and
    the call returns true. *)
Fixpoint stops_at_ready (o : outcome bool) (tr : trace) : Prop :=
  match tr with
  | [] => True
  | ServerIsAvailable r b :: tr' =>
      if (r =? RCL_RET_OK) && b then tr' = [] /\ o = Returned true
      else stops_at_ready o tr'
  | _ :: tr' => stops_at_ready o tr'
  end.

(** A world with a clock that stops at 1000 ns, never shut down, whose
    server appears at the third readiness query. *)
Definition late_server : Env :=
  scripted (fun k => Z.of_nat (Nat.min k 100) * 10) true
    (fun k => (RCL_RET_OK, Nat.leb 2 k)) (fun _ => true) RCL_RET_OK.

(** A world whose second readiness query fails with return code 1. *)
Definition failing_discovery : Env :=
  scripted (fun k => Z.of_nat k * 10) true
    (fun k => if Nat.eqb k 1 then (1, false) else (RCL_RET_OK, false))
    (fun _ => true) RCL_RET_OK.


(** A world whose server never appears and that is never shut down; its
    clock advances 10 ns per reading and stops at 1000 ns. *)
Definition absent_server : Env :=
  scripted (fun k => Z.of_nat (Nat.min k 100) * 10) true
    (fun _ => (RCL_RET_OK, false)) (fun _ => true) RCL_RET_OK.

(** ** Unfolding the program *)

Ltac unfold_monad :=
  unfold bind, ask, tell, defined, undefined_behaviour, ret, throw, out_of_fuel,
    throw_from_rcl_error, get_graph_event, wait_for_graph_change,
    check_and_clear, service_is_ready.

(** Closes [In (WaitForGraphChange w) tr -> w = 0] on an explicit trace. *)
Ltac only_zero_waits :=
  let w := fresh "w" in
  let Hw := fresh "Hw" in
  intros w Hw; cbn in Hw;
  repeat (destruct Hw as [Hw|Hw]; [try discriminate; try (injection Hw; auto)|]);
  contradiction.

(** One execution of the loop body, spelled out. *)
Lemma do_while_S (env : Env) (n : nat) (timeout start ttw : nanoseconds) (h : trace) :
  do_while env (S n) timeout start ttw h =
  if rclcpp_ok env h then
    let r := rcl_service_server_is_available env
               (h ++ [Ok true; WaitForGraphChange ttw; CheckAndClear]) in
    let pass := [Ok true; WaitForGraphChange ttw; CheckAndClear;
                 ServerIsAvailable (fst r) (snd r)] in
    if fst r =? RCL_RET_OK then
      if snd r then (Returned true, pass)
      else
        let t := steady_clock_now env (h ++ pass) in
        match chrono_sub t start with
        | None => (Undefined, pass ++ [Now t])
        | Some e =>
            match chrono_sub timeout e with
            | None => (Undefined, pass ++ [Now t])
            | Some d =>
                if (d >? 0) || (timeout <? 0) then
                  let (o, es) := do_while env n timeout start d (h ++ pass ++ [Now t]) in
                  (o, pass ++ Now t :: es)
                else (Returned false, pass ++ [Now t])
            end
        end
    else (Thrown (RCLError (fst r) "rcl_service_server_is_available failed"), pass)
  else (Returned false, [Ok false]).
Proof.
  cbn [do_while]. unfold_monad.
  destruct (rclcpp_ok env h); cbn; [|reflexivity].
  rewrite <- !app_assoc; cbn.
  destruct (rcl_service_server_is_available env _) as [r b]; cbn.
  destruct (r =? RCL_RET_OK); cbn; [|reflexivity].
  destruct b; cbn; [reflexivity|].
  rewrite <- !app_assoc; cbn.
  destruct (chrono_sub _ start) as [e|]; cbn; [|reflexivity].
  destruct (chrono_sub timeout e) as [d|]; cbn; [|reflexivity].
  destruct ((d >? 0) || (timeout <? 0)); cbn; [|reflexivity].
  rewrite <- !app_assoc; cbn.
  destruct (do_while env n timeout start d _); reflexivity.
Qed.

(** The straight-line part of [wait_for_service_nanoseconds], spelled out. *)
Lemma wait_for_service_unfold (env : Env) (fuel : nat) (timeout : nanoseconds) :
  run (wait_for_service_nanoseconds env fuel timeout) =
  let t0 := start_of env in
  if node_graph_lock env [Now t0] then
    let r := first_answer env in
    let pre := before_check env ++ [ServerIsAvailable (fst r) (snd r)] in
    if fst r =? RCL_RET_OK then
      if snd r then (Returned true, pre)
      else if timeout =? 0 then (Returned false, pre)
      else
        let t1 := steady_clock_now env pre in
        match chrono_sub t1 t0 with
        | None => (Undefined, pre ++ [Now t1])
        | Some e =>
            match chrono_sub timeout e with
            | None => (Undefined, pre ++ [Now t1])
            | Some d =>
                let ttw := if (timeout >? 0) && (d <? 0) then 0 else d in
                let (o, es) := do_while env fuel timeout t0 ttw (pre ++ [Now t1]) in
                (o, pre ++ Now t1 :: es)
            end
        end
    else (Thrown (RCLError (fst r) "rcl_service_server_is_available failed"), pre)
  else (Thrown InvalidNodeError, [Now t0; Lock false]).
Proof.
  unfold run, wait_for_service_nanoseconds, first_answer, before_check, start_of.
  unfold_monad. cbn.
  destruct (node_graph_lock env _); cbn; [|reflexivity].
  destruct (rcl_service_server_is_available env _) as [r b]; cbn.
  destruct (r =? RCL_RET_OK); cbn; [|reflexivity].
  destruct b; cbn; [reflexivity|].
  destruct (timeout =? 0); cbn; [reflexivity|].
  destruct (chrono_sub _ _) as [e|]; cbn; [|reflexivity].
  destruct (chrono_sub timeout e) as [d|]; cbn; [|reflexivity].
  destruct (do_while env fuel timeout _ _ _); reflexivity.
Qed.

Lemma count_app (p : call -> bool) (a b : trace) :
  count p (a ++ b) = (count p a + count p b)%nat.
Proof. unfold count. rewrite filter_app, length_app. reflexivity. Qed.

Lemma count_cons (p : call -> bool) (c : call) (tr : trace) :
  count p (c :: tr) = ((if p c then 1 else 0) + count p tr)%nat.
Proof. unfold count. cbn. destruct (p c); reflexivity. Qed.

Lemma chrono_sub_Some (a b c : nanoseconds) :
  chrono_sub a b = Some c -> c = a - b /\ in_int64 (a - b) = true.
Proof.
  unfold chrono_sub. destruct (in_int64 (a - b)); [|discriminate].
  intros [= <-]. split; reflexivity.
Qed.

Lemma chrono_sub_None (a b : nanoseconds) :
  chrono_sub a b = None -> in_int64 (a - b) = false.
Proof. unfold chrono_sub. destruct (in_int64 (a - b)); [discriminate|reflexivity]. Qed.

(** Whatever the fuel, [do_while] follows the rules of [loop_run]. *)
Lemma do_while_loop_run (env : Env) (timeout start : nanoseconds) (n : nat) :
  forall ttw h,
    loop_run env timeout start h ttw
      (fst (do_while env n timeout start ttw h))
      (snd (do_while env n timeout start ttw h)).
Proof.
  induction n as [|n IH]; intros ttw h.
  - cbn. constructor.
  - rewrite do_while_S.
    destruct (rclcpp_ok env h) eqn:Hok; [|cbn; constructor; assumption].
    cbn zeta.
    destruct (rcl_service_server_is_available env _) as [r b] eqn:Hq. cbn [fst snd].
    destruct (r =? RCL_RET_OK) eqn:Hr.
    + apply Z.eqb_eq in Hr. subst r.
      destruct b; [cbn; apply loop_ready; assumption|].
      destruct (chrono_sub _ start) as [e|] eqn:He.
      * apply chrono_sub_Some in He. destruct He as [-> He].
        destruct (chrono_sub timeout _) as [d|] eqn:Hd.
        -- apply chrono_sub_Some in Hd. destruct Hd as [-> Hd].
           destruct ((_ >? 0) || (timeout <? 0)) eqn:Hc.
           ++ specialize (IH (timeout - (steady_clock_now env
                   (h ++ [Ok true; WaitForGraphChange ttw; CheckAndClear;
                          ServerIsAvailable RCL_RET_OK false]) - start))
                 (h ++ [Ok true; WaitForGraphChange ttw; CheckAndClear;
                        ServerIsAvailable RCL_RET_OK false] ++
                       [Now (steady_clock_now env
                          (h ++ [Ok true; WaitForGraphChange ttw; CheckAndClear;
                                 ServerIsAvailable RCL_RET_OK false]))])).
              destruct (do_while env n timeout start _ _) as [o es]. cbn [fst snd] in *.
              apply (loop_again env timeout start h ttw _ o es); auto.
              ** unfold pass. rewrite He, Hd. reflexivity.
              ** apply orb_true_iff in Hc. destruct Hc as [Hc|Hc]; [left|right]; lia.
           ++ apply orb_false_iff in Hc. destruct Hc as [Hc1 Hc2]. cbn [fst snd].
              apply (loop_out_of_time env timeout start h ttw _); auto.
              ** unfold pass. rewrite He, Hd. reflexivity.
              ** lia.
              ** lia.
        -- apply chrono_sub_None in Hd. cbn [fst snd].
           apply (loop_overflow env timeout start h ttw _); auto.
           unfold pass. rewrite He, Hd. reflexivity.
      * apply chrono_sub_None in He. cbn [fst snd].
        apply (loop_overflow env timeout start h ttw _); auto.
        unfold pass. rewrite He. reflexivity.
    + apply Z.eqb_neq in Hr. cbn [fst snd].
      apply loop_query_error; assumption.
Qed.

Lemma wait_for_service_call_run (env : Env) (fuel : nat) (timeout : nanoseconds) :
  call_run env timeout
    (fst (run (wait_for_service_nanoseconds env fuel timeout)))
    (snd (run (wait_for_service_nanoseconds env fuel timeout))).
Proof.
  rewrite wait_for_service_unfold. cbn zeta.
  destruct (node_graph_lock env _) eqn:Halive; [|apply call_stale; assumption].
  destruct (first_answer env) as [r b] eqn:Hq. cbn [fst snd].
  destruct (r =? RCL_RET_OK) eqn:Hr.
  - apply Z.eqb_eq in Hr. subst r.
    destruct b; [apply call_ready; assumption|].
    destruct (timeout =? 0) eqn:Ht.
    + apply Z.eqb_eq in Ht. apply call_probe; assumption.
    + apply Z.eqb_neq in Ht.
      assert (Hpre : forall es,
        (before_check env ++ [ServerIsAvailable RCL_RET_OK false]) ++
          Now (steady_clock_now env
                 (before_check env ++ [ServerIsAvailable RCL_RET_OK false])) :: es
        = before_loop env ++ es)
        by (intros es; unfold before_loop; rewrite <- !app_assoc; reflexivity).
      pose proof (Hpre []) as Hpre0. rewrite app_nil_r in Hpre0.
      destruct (chrono_sub _ (start_of env)) as [e|] eqn:He.
      * destruct (chrono_sub timeout e) as [d|] eqn:Hd.
        -- rewrite Hpre0.
           pose proof (do_while_loop_run env timeout (start_of env) fuel
                         (clamp timeout d) (before_loop env)) as Hloop.
           fold (clamp timeout d).
           destruct (do_while env fuel timeout _ _ _) as [o es].
           cbn [fst snd] in *. rewrite Hpre.
           apply (call_loop env timeout d); auto.
           unfold first_budget. rewrite He. exact Hd.
        -- rewrite Hpre0. apply call_overflow; auto.
           unfold first_budget. rewrite He. exact Hd.
      * rewrite Hpre0. apply call_overflow; auto.
        unfold first_budget. rewrite He. reflexivity.
  - apply Z.eqb_neq in Hr. apply call_query_error; assumption.
Qed.

(** ** The straight-line paths *)

(** C8: when the weak reference to the node graph cannot be locked, the call
    throws [InvalidNodeError] for every timeout, and the only calls it has
    made are the first clock reading and the failed lock: no readiness query
    and no wait. *)
Theorem stale_node_throws_before_any_check (env : Env) (fuel : nat) (timeout : nanoseconds) :
  node_graph_lock env [Now (start_of env)] = false ->
  let (o, tr) := run (wait_for_service_nanoseconds env fuel timeout) in
  o = Thrown InvalidNodeError /\
  tr = [Now (start_of env); Lock false] /\
  count is_check tr = 0%nat /\ count is_wait tr = 0%nat.
Proof.
  intros Hdead. rewrite wait_for_service_unfold. cbn zeta. rewrite Hdead.
  repeat split.
Qed.

Lemma stale_node_throws_before_any_check_witness :
  let env := scripted (fun _ => 7) false (fun _ => (RCL_RET_OK, true)) (fun _ => true) RCL_RET_OK in
  let (o, tr) := run (wait_for_service_nanoseconds env 3 (-1)) in
  o = Thrown InvalidNodeError /\
  tr = [Now (start_of env); Lock false] /\
  count is_check tr = 0%nat /\ count is_wait tr = 0%nat.
Proof.
  apply (stale_node_throws_before_any_check
           (scripted (fun _ => 7) false (fun _ => (RCL_RET_OK, true)) (fun _ => true) RCL_RET_OK)
           3 (-1)).
  reflexivity.
Defined.

(** C2: when the node is alive and the immediate readiness query answers
    "ready", the call returns true for every timeout (and any amount of
    fuel, the loop is never entered), and its trace holds no wait. *)
Theorem ready_returns_true_without_waiting (env : Env) (fuel : nat) (timeout : nanoseconds) :
  node_alive env -> ready_at_call env ->
  let (o, tr) := run (wait_for_service_nanoseconds env fuel timeout) in
  o = Returned true /\
  tr = before_check env ++ [ServerIsAvailable RCL_RET_OK true] /\
  count is_wait tr = 0%nat.
Proof.
  unfold node_alive, ready_at_call. intros Halive Hready.
  rewrite wait_for_service_unfold. cbn zeta. rewrite Halive, Hready. cbn.
  repeat split.
Qed.

Lemma ready_returns_true_without_waiting_witness :
  let env := simulated 10 0 5 in
  node_alive env /\ ready_at_call env /\
  (let (o, tr) := run (wait_for_service_nanoseconds env 0 (-1)) in
   o = Returned true /\
   tr = before_check env ++ [ServerIsAvailable RCL_RET_OK true] /\
   count is_wait tr = 0%nat).
Proof.
  split; [reflexivity|]. split; [reflexivity|].
  apply (ready_returns_true_without_waiting (simulated 10 0 5) 0 (-1)); reflexivity.
Defined.

(** C5: with a timeout of zero, the node alive and the immediate readiness
    query answering "not ready", the call returns false right after that
    single query: the trace ends there and holds no wait. *)
Theorem zero_timeout_returns_false_without_waiting (env : Env) (fuel : nat) :
  node_alive env -> not_ready_at_call env ->
  let (o, tr) := run (wait_for_service_nanoseconds env fuel 0) in
  o = Returned false /\
  tr = before_check env ++ [ServerIsAvailable RCL_RET_OK false] /\
  count is_check tr = 1%nat /\ count is_wait tr = 0%nat.
Proof.
  unfold node_alive, not_ready_at_call. intros Halive Hnot.
  rewrite wait_for_service_unfold. cbn zeta. rewrite Halive, Hnot. cbn.
  repeat split.
Qed.

Lemma zero_timeout_returns_false_without_waiting_witness :
  let env := simulated 10 3 5 in
  node_alive env /\ not_ready_at_call env /\
  (let (o, tr) := run (wait_for_service_nanoseconds env 0 0) in
   o = Returned false /\
   tr = before_check env ++ [ServerIsAvailable RCL_RET_OK false] /\
   count is_check tr = 1%nat /\ count is_wait tr = 0%nat).
Proof.
  split; [reflexivity|]. split; [reflexivity|].
  apply (zero_timeout_returns_false_without_waiting (simulated 10 3 5) 0); reflexivity.
Defined.

(** ** Failing readiness queries *)

Lemma loop_stops_at_query_error env timeout start h ttw o es :
  loop_run env timeout start h ttw o es -> stops_at_query_error o es.
Proof.
  induction 1; unfold pass; cbn; auto.
  destruct (r =? RCL_RET_OK) eqn:E; [apply Z.eqb_eq in E; contradiction|auto].
Qed.

Lemma call_stops_at_query_error env timeout o tr :
  call_run env timeout o tr -> stops_at_query_error o tr.
Proof.
  destruct 1; unfold before_loop, before_check; cbn; auto.
  - destruct (r =? RCL_RET_OK) eqn:E; [apply Z.eqb_eq in E; contradiction|auto].
  - eapply loop_stops_at_query_error; eassumption.
Qed.

Lemma stops_at_query_error_split (o : outcome bool) (pre post : trace) r b :
  stops_at_query_error o (pre ++ ServerIsAvailable r b :: post) ->
  r <> RCL_RET_OK ->
  post = [] /\ o = Thrown (RCLError r "rcl_service_server_is_available failed").
Proof.
  intros H Hr. induction pre as [|c pre IH]; cbn in H.
  - destruct (r =? RCL_RET_OK) eqn:E; [apply Z.eqb_eq in E; contradiction|exact H].
  - destruct c as [| | |r' b'| | | | | | |]; auto.
    destruct (r' =? RCL_RET_OK); auto.
    destruct H as [H _]. destruct pre; discriminate.
Qed.

(** C7: in every call, whatever the fuel and the timeout, a readiness query
    that comes back with a return code other than [RCL_RET_OK] (the immediate
    one or the one of any loop pass) is the last call the function makes: no
    wait and no query follows it, and the call ends by throwing the error
    built from that return code. *)
Theorem query_error_propagates_at_once (env : Env) (fuel : nat) (timeout : nanoseconds) :
  let (o, tr) := run (wait_for_service_nanoseconds env fuel timeout) in
  forall pre r b post,
    tr = pre ++ ServerIsAvailable r b :: post ->
    r <> RCL_RET_OK ->
    post = [] /\ o = Thrown (RCLError r "rcl_service_server_is_available failed").
Proof.
  pose proof (wait_for_service_call_run env fuel timeout) as H.
  destruct (run _) as [o tr]. cbn [fst snd] in H.
  intros pre r b post -> Hr.
  apply call_stops_at_query_error in H.
  eapply stops_at_query_error_split; eassumption.
Qed.

Lemma query_error_propagates_at_once_witness :
  let env := scripted (fun k => Z.of_nat k * 10) true
               (fun k => if Nat.eqb k 2 then (2, false) else (RCL_RET_OK, false))
               (fun _ => true) RCL_RET_OK in
  run (wait_for_service_nanoseconds env 9 1000) =
    (Thrown (RCLError 2 "rcl_service_server_is_available failed"),
     [Now 0; Lock true; GetGraphEvent; ServerIsAvailable 0 false; Now 10;
      Ok true; WaitForGraphChange 990; CheckAndClear; ServerIsAvailable 0 false; Now 20;
      Ok true; WaitForGraphChange 980; CheckAndClear] ++ ServerIsAvailable 2 false :: []) /\
  ([] : trace) = [] /\
  Thrown (RCLError 2 "rcl_service_server_is_available failed") =
    (Thrown (RCLError 2 "rcl_service_server_is_available failed") : outcome bool).
Proof.
  split; [reflexivity|].
  pose proof (query_error_propagates_at_once
    (scripted (fun k => Z.of_nat k * 10) true
       (fun k => if Nat.eqb k 2 then (2, false) else (RCL_RET_OK, false))
       (fun _ => true) RCL_RET_OK) 9 1000) as H.
  cbv beta iota zeta delta [run] in H.
  destruct (wait_for_service_nanoseconds _ 9 1000 []) as [o tr] eqn:E.
  vm_compute in E. injection E as <- <-.
  apply (H [Now 0; Lock true; GetGraphEvent; ServerIsAvailable 0 false; Now 10;
      Ok true; WaitForGraphChange 990; CheckAndClear; ServerIsAvailable 0 false; Now 20;
      Ok true; WaitForGraphChange 980; CheckAndClear] 2 false []); [reflexivity|discriminate].
Defined.

(** ** Waits and re-checks *)

Lemma loop_rechecked env timeout start h ttw o es :
  loop_run env timeout start h ttw o es -> rechecked_after_each_wait es.
Proof. induction 1; unfold pass; cbn; auto. Qed.

Lemma loop_true_after_check env timeout start h ttw o es :
  loop_run env timeout start h ttw o es ->
  o = Returned true -> exists pre, es = pre ++ [ServerIsAvailable RCL_RET_OK true].
Proof.
  induction 1; intros E; try discriminate.
  - exists [Ok true; WaitForGraphChange ttw; CheckAndClear]. reflexivity.
  - destruct (IHloop_run E) as [pre ->].
    exists (pass ttw RCL_RET_OK false ++ Now t :: pre).
    rewrite <- app_assoc. reflexivity.
Qed.

Lemma loop_checks_eq_waits env timeout start h ttw o es :
  loop_run env timeout start h ttw o es -> count is_check es = count is_wait es.
Proof.
  induction 1; unfold pass; cbn [app]; rewrite ?count_cons; cbn; auto.
Qed.

(** C1: in every call, (1) each wait on the graph event is followed at once
    by [check_and_clear] and then by a readiness query; (2) a return of true
    has a successful readiness query answering "ready" as the very last call
    of the trace, hence after the last wait; (3) there is exactly one
    readiness query per wait, plus the immediate one; and (4) a pass whose
    query finds the server still missing while time remains (or the timeout
    is negative) has made exactly the calls [Ok], [WaitForGraphChange],
    [CheckAndClear], one [ServerIsAvailable] and [Now], and the loop goes
    round again with the recomputed budget. *)
Theorem every_wait_is_followed_by_a_recheck (env : Env) (fuel : nat) (timeout : nanoseconds) :
  (let (o, tr) := run (wait_for_service_nanoseconds env fuel timeout) in
   rechecked_after_each_wait tr /\
   (o = Returned true -> exists pre, tr = pre ++ [ServerIsAvailable RCL_RET_OK true]) /\
   count is_check tr =
     ((if node_graph_lock env [Now (start_of env)] then 1 else 0) + count is_wait tr)%nat) /\
  (forall n start ttw h t,
     rclcpp_ok env h = true ->
     rcl_service_server_is_available env
       (h ++ [Ok true; WaitForGraphChange ttw; CheckAndClear]) = (RCL_RET_OK, false) ->
     t = steady_clock_now env (h ++ pass ttw RCL_RET_OK false) ->
     in_int64 (t - start) && in_int64 (timeout - (t - start)) = true ->
     0 < timeout - (t - start) \/ timeout < 0 ->
     do_while env (S n) timeout start ttw h =
       let (o, es) := do_while env n timeout start (timeout - (t - start))
                        (h ++ pass ttw RCL_RET_OK false ++ [Now t]) in
       (o, pass ttw RCL_RET_OK false ++ Now t :: es)).
Proof.
  split.
  - pose proof (wait_for_service_call_run env fuel timeout) as H.
    destruct (run _) as [o tr]. cbn [fst snd] in H.
    destruct H as [Hd|r b Ha Hq Hr|Ha Hq|Ha Hq Ht|Ha Hq Ht Hb|d o es Ha Hq Ht Hb Hl];
      try (unfold node_alive in Ha; rewrite Ha);
      try rewrite Hd; unfold before_loop, before_check; cbn [app].
    + cbn. repeat split. discriminate.
    + cbn. repeat split. discriminate.
    + cbn. repeat split. intros _.
      exists [Now (start_of env); Lock true; GetGraphEvent]. reflexivity.
    + cbn. repeat split. discriminate.
    + cbn. repeat split. discriminate.
    + split; [|split].
      * cbn. eapply loop_rechecked; eassumption.
      * intros E. destruct (loop_true_after_check _ _ _ _ _ _ _ Hl E) as [pre ->].
        eexists (_ :: _ :: _ :: _ :: _ :: pre). reflexivity.
      * rewrite !count_cons. cbn.
        f_equal. eapply loop_checks_eq_waits; eassumption.
  - intros n start ttw h t Hok Hq Ht Hrange Hgo.
    rewrite do_while_S, Hok. cbn zeta. rewrite Hq. cbn [fst snd].
    change (RCL_RET_OK =? RCL_RET_OK) with true. cbn iota.
    fold (pass ttw RCL_RET_OK false). rewrite <- Ht.
    apply andb_true_iff in Hrange. destruct Hrange as [H1 H2].
    unfold chrono_sub. rewrite H1, H2.
    replace ((timeout - (t - start) >? 0) || (timeout <? 0)) with true; [reflexivity|].
    symmetry. apply orb_true_iff. destruct Hgo; [left|right]; lia.
Qed.

Lemma every_wait_is_followed_by_a_recheck_witness :
  (exists pre,
     snd (run (wait_for_service_nanoseconds slow_discovery 5 1000)) =
       pre ++ [ServerIsAvailable RCL_RET_OK true]) /\
  do_while slow_discovery 2 1000 0 990 (before_loop slow_discovery) =
    (let (o, es) := do_while slow_discovery 1 1000 0 (1000 - (20 - 0))
                      (before_loop slow_discovery ++ pass 990 RCL_RET_OK false ++ [Now 20]) in
     (o, pass 990 RCL_RET_OK false ++ Now 20 :: es)).
Proof.
  destruct (every_wait_is_followed_by_a_recheck slow_discovery 5 1000) as [H1 H2].
  split.
  - destruct (run (wait_for_service_nanoseconds slow_discovery 5 1000)) as [o tr] eqn:E.
    vm_compute in E. injection E as <- <-.
    destruct H1 as (_ & H & _). apply H. reflexivity.
  - apply (H2 1%nat 0 990 (before_loop slow_discovery) 20); try reflexivity.
    left. reflexivity.
Defined.

(** ** Negative timeouts *)

Lemma loop_waits_unclamped env timeout start h ttw o es :
  loop_run env timeout start h ttw o es ->
  timeout < 0 ->
  (forall h', start <= steady_clock_now env h') ->
  forall last,
    ttw = timeout - (last - start) -> ttw < 0 ->
    waits_unclamped timeout start last es.
Proof.
  induction 1; intros Hneg Hsteady last Httw Hlt; unfold pass; cbn; auto.
  repeat split; auto.
  apply IHloop_run; auto.
  subst t. specialize (Hsteady (h ++ pass ttw RCL_RET_OK false)). lia.
Qed.

Lemma waits_unclamped_split (timeout start : nanoseconds) (pre post : trace) d :
  forall last,
    waits_unclamped timeout start last (pre ++ WaitForGraphChange d :: post) ->
    d = timeout - (latest_reading pre last - start) /\ d < 0.
Proof.
  induction pre as [|c pre IH]; intros last H; cbn in H.
  - cbn. tauto.
  - destruct c; cbn; auto. destruct H as [_ H]. auto.
Qed.

Lemma steady_after_start (env : Env) :
  steady_clock env -> forall h, start_of env <= steady_clock_now env h.
Proof. intros Hs h. apply (Hs [] h). Qed.

Lemma call_waits_unclamped env timeout o tr :
  call_run env timeout o tr ->
  timeout < 0 -> steady_clock env ->
  waits_unclamped timeout (start_of env) 0 tr.
Proof.
  intros H Hneg Hs.
  destruct H as [Hd|r b Ha Hq Hr|Ha Hq|Ha Hq Ht|Ha Hq Ht Hb|d o es Ha Hq Ht Hb Hl];
    unfold before_loop, before_check; cbn; auto.
  unfold first_budget in Hb.
  destruct (chrono_sub _ (start_of env)) as [e|] eqn:He; [|discriminate].
  apply chrono_sub_Some in He. destruct He as [-> _].
  apply chrono_sub_Some in Hb. destruct Hb as [Hd _].
  pose proof (steady_after_start env Hs
                (before_check env ++ [ServerIsAvailable RCL_RET_OK false])) as Hge.
  assert (Hclamp : clamp timeout d = d).
  { unfold clamp. replace (timeout >? 0) with false; [reflexivity|]. symmetry. lia. }
  rewrite Hclamp in Hl.
  eapply loop_waits_unclamped; try eassumption.
  - apply steady_after_start. assumption.
  - lia.
Qed.

Lemma loop_waits_eq_goes env timeout start h ttw o es :
  loop_run env timeout start h ttw o es -> count is_wait es = count is_go es.
Proof.
  induction 1; unfold pass; cbn [app]; rewrite ?count_cons; cbn; auto.
Qed.

Lemma steady_clock_slow_discovery : steady_clock slow_discovery.
Proof.
  intros h h'. cbn. rewrite count_app. lia.
Qed.

Lemma loop_negative_ends_by_shutdown env timeout start h ttw o es :
  loop_run env timeout start h ttw o es ->
  timeout < 0 -> never_ready env ->
  (forall e, o <> Thrown e) /\
  (forall b, o = Returned b ->
     b = false /\ exists pre, es = pre ++ [Ok false] /\ rclcpp_ok env (h ++ pre) = false).
Proof.
  induction 1; intros Hneg Hnever.
  - split; intros; discriminate.
  - split; [intros; discriminate|]. intros b [= <-]. split; [reflexivity|].
    exists []. rewrite app_nil_r. split; [reflexivity|assumption].
  - rewrite Hnever in H0. injection H0 as <- <-. contradiction.
  - rewrite Hnever in H0. discriminate.
  - split; intros; discriminate.
  - lia.
  - destruct (IHloop_run Hneg Hnever) as [IH1 IH2]. split; [exact IH1|].
    intros b E. destruct (IH2 b E) as (-> & pre & -> & Hpoll). split; [reflexivity|].
    exists (pass ttw RCL_RET_OK false ++ Now t :: pre). split.
    + rewrite <- app_assoc. reflexivity.
    + replace (h ++ pass ttw RCL_RET_OK false ++ Now t :: pre)
        with ((h ++ pass ttw RCL_RET_OK false ++ [Now t]) ++ pre);
        [exact Hpoll | rewrite <- !app_assoc; reflexivity].
Qed.

Lemma do_while_shutdown env timeout k :
  timeout < 0 -> never_ready env -> shutdown_from env k ->
  chrono_in_range env timeout ->
  forall fuel h ttw,
    (k <= fuel + count is_poll h)%nat ->
    exists es, do_while env (S fuel) timeout (start_of env) ttw h = (Returned false, es).
Proof.
  intros Hneg Hnever Hshut Hrange.
  induction fuel as [|fuel IH]; intros h ttw Hk; rewrite do_while_S.
  - rewrite (Hshut h) by lia. eexists. reflexivity.
  - destruct (rclcpp_ok env h) eqn:Hok; [|eexists; reflexivity].
    cbn zeta. rewrite Hnever. cbn [fst snd].
    change (RCL_RET_OK =? RCL_RET_OK) with true. cbn iota.
    destruct (Hrange (h ++ [Ok true; WaitForGraphChange ttw; CheckAndClear;
                            ServerIsAvailable RCL_RET_OK false])) as [H1 H2].
    unfold chrono_sub. rewrite H1, H2.
    replace (timeout <? 0) with true by (symmetry; lia). rewrite orb_true_r.
    match goal with
    | |- context [do_while env (S fuel) timeout (start_of env) ?d ?h'] =>
        destruct (IH h' d) as [es Hes]
    end.
    + rewrite !count_app. cbn. lia.
    + rewrite Hes. eexists. reflexivity.
Qed.

(** C6: take a negative timeout, a live node and a server that never
    appears (the query never failing).  Then (1) for every amount of fuel the
    call never throws, and whenever it returns, it returns false and the last
    call it made is a poll of [rclcpp::ok()] that answered false: it never
    returns because time ran out; (2) if [rclcpp::ok()] never answers false
    the call never returns; and (3) if [rclcpp::ok()] answers false from the
    [k]-th poll on (the chrono arithmetic staying in range), the call
    returns false within [k + 1] passes of the loop. *)
Theorem negative_timeout_returns_false_iff_shutdown (env : Env) (timeout : nanoseconds) :
  timeout < 0 -> node_alive env -> never_ready env ->
  (forall fuel,
     let (o, tr) := run (wait_for_service_nanoseconds env fuel timeout) in
     (forall e, o <> Thrown e) /\
     (forall b, o = Returned b ->
        b = false /\ exists pre, tr = pre ++ [Ok false] /\ rclcpp_ok env pre = false)) /\
  ((forall h, rclcpp_ok env h = true) ->
   forall fuel b, fst (run (wait_for_service_nanoseconds env fuel timeout)) <> Returned b) /\
  (forall k fuel,
     shutdown_from env k -> chrono_in_range env timeout -> (k < fuel)%nat ->
     exists tr, run (wait_for_service_nanoseconds env fuel timeout) = (Returned false, tr)).
Proof.
  intros Hneg Halive Hnever.
  assert (Hsafe : forall fuel,
     let (o, tr) := run (wait_for_service_nanoseconds env fuel timeout) in
     (forall e, o <> Thrown e) /\
     (forall b, o = Returned b ->
        b = false /\ exists pre, tr = pre ++ [Ok false] /\ rclcpp_ok env pre = false)).
  { intros fuel.
    pose proof (wait_for_service_call_run env fuel timeout) as H.
    destruct (run _) as [o tr]. cbn [fst snd] in H.
    destruct H as [Hd|r b Ha Hq Hr|Ha Hq|Ha Hq Ht|Ha Hq Ht Hb|d o es Ha Hq Ht Hb Hl].
    - unfold node_alive in Halive. congruence.
    - unfold first_answer in Hq. rewrite Hnever in Hq. injection Hq as <- <-. contradiction.
    - unfold ready_at_call, first_answer in Hq. rewrite Hnever in Hq. discriminate.
    - lia.
    - split; intros; discriminate.
    - destruct (loop_negative_ends_by_shutdown _ _ _ _ _ _ _ Hl Hneg Hnever) as [H1 H2].
      split; [exact H1|]. intros b E.
      destruct (H2 b E) as (-> & pre & -> & Hpoll). split; [reflexivity|].
      exists (before_loop env ++ pre). split; [|exact Hpoll].
      rewrite <- app_assoc. reflexivity. }
  split; [exact Hsafe|]. split.
  - intros Hup fuel b E. specialize (Hsafe fuel).
    destruct (run _) as [o tr]. cbn [fst] in E. destruct Hsafe as [_ Hsafe].
    destruct (Hsafe b E) as (_ & pre & _ & Hpoll). rewrite Hup in Hpoll. discriminate.
  - intros k fuel Hshut Hrange Hk.
    destruct fuel as [|fuel]; [lia|].
    rewrite wait_for_service_unfold. cbn zeta.
    unfold node_alive in Halive. rewrite Halive.
    unfold first_answer. rewrite Hnever. cbn [fst snd].
    change (RCL_RET_OK =? RCL_RET_OK) with true. cbn iota.
    replace (timeout =? 0) with false by (symmetry; lia).
    destruct (Hrange (before_check env ++ [ServerIsAvailable RCL_RET_OK false])) as [H1 H2].
    unfold chrono_sub. rewrite H1, H2.
    match goal with
    | |- context [do_while env (S fuel) timeout (start_of env) ?d ?h'] =>
        destruct (do_while_shutdown env timeout k Hneg Hnever Hshut Hrange fuel h' d)
          as [es Hes]
    end.
    + lia.
    + rewrite Hes. eexists. reflexivity.
Qed.

Lemma never_ready_shut_down_while_waiting : never_ready shut_down_while_waiting.
Proof. intros h. reflexivity. Qed.

Lemma shutdown_from_shut_down_while_waiting : shutdown_from shut_down_while_waiting 2.
Proof.
  intros h Hk. change (Nat.ltb (count is_poll h) 2 = false).
  apply Nat.ltb_ge. exact Hk.
Qed.

Lemma in_int64_small (z : Z) : -1001 <= z <= 1000 -> in_int64 z = true.
Proof.
  intros Hz. unfold in_int64, INT64_MIN, INT64_MAX.
  apply andb_true_iff. split; apply Z.leb_le.
  - transitivity (-1001); [|lia]. apply Z.leb_le. reflexivity.
  - transitivity 1000; [lia|]. apply Z.leb_le. reflexivity.
Qed.

Lemma chrono_in_range_shut_down_while_waiting :
  chrono_in_range shut_down_while_waiting (-1).
Proof.
  intros h. unfold start_of, shut_down_while_waiting, scripted.
  cbn [steady_clock_now].
  pose proof (Nat.le_min_r (count is_now h) 100) as Hh.
  pose proof (Nat.le_min_r (count is_now []) 100) as H0.
  set (a := Nat.min (count is_now h) 100) in *.
  set (b := Nat.min (count is_now []) 100) in *.
  split; apply in_int64_small; lia.
Qed.

Lemma negative_timeout_returns_false_iff_shutdown_witness :
  -1 < 0 /\ node_alive shut_down_while_waiting /\ never_ready shut_down_while_waiting /\
  shutdown_from shut_down_while_waiting 2 /\ chrono_in_range shut_down_while_waiting (-1) /\
  (2 < 3)%nat /\
  exists tr,
    run (wait_for_service_nanoseconds shut_down_while_waiting 3 (-1)) = (Returned false, tr).
Proof.
  split; [lia|]. split; [reflexivity|].
  split; [exact never_ready_shut_down_while_waiting|].
  split; [exact shutdown_from_shut_down_while_waiting|].
  split; [exact chrono_in_range_shut_down_while_waiting|].
  split; [lia|].
  destruct (negative_timeout_returns_false_iff_shutdown shut_down_while_waiting (-1))
    as (_ & _ & H).
  - lia.
  - reflexivity.
  - exact never_ready_shut_down_while_waiting.
  - apply (H 2%nat 3%nat).
    + exact shutdown_from_shut_down_while_waiting.
    + exact chrono_in_range_shut_down_while_waiting.
    + lia.
Defined.

(** ** Where the shutdown signal is polled *)

Lemma no_poll_no_split (tr pre post : trace) b :
  count is_poll tr = 0%nat -> tr <> pre ++ Ok b :: post.
Proof.
  intros H ->. rewrite count_app, count_cons in H. cbn in H. lia.
Qed.

Lemma poll_after_prefix (pfx : trace) :
  count is_poll pfx = 0%nat ->
  forall es pre post b,
    pfx ++ es = pre ++ Ok b :: post -> exists pre', pre = pfx ++ pre'.
Proof.
  induction pfx as [|c pfx IH]; intros Hc es pre post b E.
  - exists pre. reflexivity.
  - rewrite count_cons in Hc.
    destruct pre as [|c' pre].
    + cbn in E. injection E as -> _. cbn in Hc. discriminate.
    + cbn in E. injection E as -> E.
      destruct (IH ltac:(lia) es pre post b E) as [pre' ->].
      exists pre'. reflexivity.
Qed.

(** C10: [rclcpp::ok()] is polled only at the top of the loop body.  In every
    call, (1) if the context is already shut down ([rclcpp::ok()] would
    answer false whenever asked) but the node is alive and the immediate
    readiness query answers "ready", the call still returns true, and it has
    not polled [rclcpp::ok()] at all; (2) a call with timeout zero never
    polls it; and (3) any poll in the trace comes after a readiness query. *)
Theorem shutdown_polled_only_in_loop (env : Env) (fuel : nat) (timeout : nanoseconds) :
  let (o, tr) := run (wait_for_service_nanoseconds env fuel timeout) in
  ((forall h, rclcpp_ok env h = false) -> node_alive env -> ready_at_call env ->
   o = Returned true /\ count is_poll tr = 0%nat) /\
  (timeout = 0 -> count is_poll tr = 0%nat) /\
  (forall pre b post, tr = pre ++ Ok b :: post -> (1 <= count is_check pre)%nat).
Proof.
  pose proof (wait_for_service_call_run env fuel timeout) as H.
  destruct (run _) as [o tr]. cbn [fst snd] in H.
  destruct H as [Hd|r b Ha Hq Hr|Ha Hq|Ha Hq Ht|Ha Hq Ht Hb|d o es Ha Hq Ht Hb Hl].
  - split; [|split].
    + unfold node_alive. intros _ Ha. congruence.
    + reflexivity.
    + intros pre b post E. exfalso. revert E. apply no_poll_no_split. reflexivity.
  - split; [|split].
    + unfold ready_at_call. intros _ _ Hq'. rewrite Hq in Hq'.
      injection Hq' as -> _. contradiction.
    + reflexivity.
    + intros pre b' post E. exfalso. revert E. apply no_poll_no_split. reflexivity.
  - split; [|split].
    + intros _ _ _. split; reflexivity.
    + reflexivity.
    + intros pre b post E. exfalso. revert E. apply no_poll_no_split. reflexivity.
  - split; [|split].
    + unfold ready_at_call, not_ready_at_call in *. intros _ _ Hq'.
      rewrite Hq in Hq'. discriminate.
    + reflexivity.
    + intros pre b post E. exfalso. revert E. apply no_poll_no_split. reflexivity.
  - split; [|split].
    + unfold ready_at_call, not_ready_at_call in *. intros _ _ Hq'.
      rewrite Hq in Hq'. discriminate.
    + reflexivity.
    + intros pre b post E. exfalso. revert E. apply no_poll_no_split. reflexivity.
  - split; [|split].
    + unfold ready_at_call, not_ready_at_call in *. intros _ _ Hq'.
      rewrite Hq in Hq'. discriminate.
    + intros E. contradiction.
    + intros pre b post E.
      destruct (poll_after_prefix (before_loop env) ltac:(reflexivity) es pre post b E)
        as [pre' ->].
      rewrite count_app. unfold before_loop, before_check. cbn. lia.
Qed.

Lemma shutdown_polled_only_in_loop_witness :
  let env := simulated 10 0 0 in
  (forall h, rclcpp_ok env h = false) /\ node_alive env /\ ready_at_call env /\
  run (wait_for_service_nanoseconds env 4 1000) =
    (Returned true, [Now 0; Lock true; GetGraphEvent; ServerIsAvailable 0 true]) /\
  Returned true = (Returned true : outcome bool) /\
  count is_poll [Now 0; Lock true; GetGraphEvent; ServerIsAvailable 0 true] = 0%nat.
Proof.
  split; [intros h; reflexivity|]. split; [reflexivity|]. split; [reflexivity|].
  split; [reflexivity|].
  pose proof (shutdown_polled_only_in_loop (simulated 10 0 0) 4 1000) as H.
  destruct (run (wait_for_service_nanoseconds (simulated 10 0 0) 4 1000)) as [o tr] eqn:E.
  vm_compute in E. injection E as <- <-.
  destruct H as (H & _ & _). apply H; [intros h| |]; reflexivity.
Defined.

(** ** A positive timeout that is already spent *)

Lemma sim_time_app (tick : nanoseconds) (h h' : trace) :
  sim_time tick (h ++ h') = sim_time tick h + sim_time tick h'.
Proof.
  induction h as [|c h IH]; [reflexivity|].
  destruct c; cbn [app sim_time]; rewrite IH; lia.
Qed.

Lemma sim_time_nonneg (tick : nanoseconds) (h : trace) :
  0 <= tick -> 0 <= sim_time tick h.
Proof.
  intros Ht. induction h as [|c h IH]; [reflexivity|].
  destruct c; cbn [sim_time]; lia.
Qed.

Lemma steady_clock_simulated (tick : nanoseconds) (ready_at shutdown_at : nat) :
  0 <= tick -> steady_clock (simulated tick ready_at shutdown_at).
Proof.
  intros Ht h h'. cbn [simulated steady_clock_now].
  rewrite sim_time_app. pose proof (sim_time_nonneg tick h' Ht). lia.
Qed.

(** C4 (as the code has it): take a positive timeout, a live node, an
    immediate readiness query answering "not ready", a first budget
    [timeout - (now() - start)] that is negative, and a steady clock.  Then
    [time_to_wait] is clamped to zero and the loop body is entered exactly
    once ([rclcpp::ok()] is polled once and the loop is not left running):
    every wait in the trace has duration zero; when the poll answers true the
    pass makes exactly one wait and one readiness re-check (two queries in
    all); when it answers false the call returns false with no wait and no
    re-check. *)
Theorem spent_budget_gives_one_pass (env : Env) (n : nat) (timeout d : nanoseconds) :
  node_alive env -> not_ready_at_call env ->
  0 < timeout -> first_budget env timeout = Some d -> d < 0 ->
  steady_clock env ->
  let (o, tr) := run (wait_for_service_nanoseconds env (S n) timeout) in
  o <> OutOfFuel /\
  count is_poll tr = 1%nat /\
  (forall w, In (WaitForGraphChange w) tr -> w = 0) /\
  (rclcpp_ok env (before_loop env) = true ->
   count is_wait tr = 1%nat /\ count is_check tr = 2%nat) /\
  (rclcpp_ok env (before_loop env) = false ->
   o = Returned false /\ count is_wait tr = 0%nat /\ count is_check tr = 1%nat).
Proof.
  unfold node_alive, not_ready_at_call.
  intros Halive Hq Hpos Hb Hd Hs.
  rewrite wait_for_service_unfold. cbn zeta. rewrite Halive, Hq. cbn [fst snd].
  change (RCL_RET_OK =? RCL_RET_OK) with true. cbn iota.
  replace (timeout =? 0) with false by (symmetry; lia).
  unfold first_budget in Hb.
  pose proof (Hs (before_check env ++ [ServerIsAvailable RCL_RET_OK false])) as Hmono.
  destruct (chrono_sub _ (start_of env)) as [e|] eqn:He; [|discriminate].
  rewrite Hb.
  replace ((timeout >? 0) && (d <? 0)) with true
    by (symmetry; apply andb_true_iff; split; lia).
  apply chrono_sub_Some in He. destruct He as [He _].
  apply chrono_sub_Some in Hb. destruct Hb as [Hb _].
  rewrite do_while_S.
  replace ((before_check env ++ [ServerIsAvailable RCL_RET_OK false]) ++
           [Now (steady_clock_now env
                   (before_check env ++ [ServerIsAvailable RCL_RET_OK false]))])
    with (before_loop env)
    by (unfold before_loop; rewrite <- !app_assoc; reflexivity).
  destruct (rclcpp_ok env (before_loop env)) eqn:Hok.
  - cbn zeta.
    destruct (rcl_service_server_is_available env _) as [r b]. cbn [fst snd].
    destruct (r =? RCL_RET_OK) eqn:Hr.
    + destruct b.
      * repeat split; try discriminate.
        only_zero_waits.
      * apply Z.eqb_eq in Hr. subst r.
        specialize (Hmono
          ([Now (steady_clock_now env
                   (before_check env ++ [ServerIsAvailable RCL_RET_OK false]));
            Ok true; WaitForGraphChange 0; CheckAndClear;
            ServerIsAvailable RCL_RET_OK false])).
        rewrite <- app_assoc in Hmono.
        change ((before_check env ++ [ServerIsAvailable RCL_RET_OK false]) ++
                [Now (steady_clock_now env
                        (before_check env ++ [ServerIsAvailable RCL_RET_OK false]))])
          with (before_loop env) in *.
        unfold before_loop at 1. rewrite <- app_assoc.
        cbn [app] in Hmono |- *.
        destruct (chrono_sub _ (start_of env)) as [e2|] eqn:He2.
        -- apply chrono_sub_Some in He2. destruct He2 as [He2 _].
           destruct (chrono_sub timeout e2) as [d2|] eqn:Hd2.
           ++ apply chrono_sub_Some in Hd2. destruct Hd2 as [Hd2 _].
              replace ((d2 >? 0) || (timeout <? 0)) with false
                by (symmetry; apply orb_false_iff; split; lia).
              repeat split; try discriminate.
              only_zero_waits.
           ++ repeat split; try discriminate.
              only_zero_waits.
        -- repeat split; try discriminate.
           only_zero_waits.
    + repeat split; try discriminate.
      only_zero_waits.
  - repeat split; try discriminate.
    only_zero_waits.
Qed.

Lemma spent_budget_gives_one_pass_witness :
  let env := simulated 10 9 100 in
  node_alive env /\ not_ready_at_call env /\ 0 < 5 /\
  first_budget env 5 = Some (-35) /\ -35 < 0 /\ steady_clock env /\
  rclcpp_ok env (before_loop env) = true /\
  count is_wait (snd (run (wait_for_service_nanoseconds env 1 5))) = 1%nat /\
  count is_check (snd (run (wait_for_service_nanoseconds env 1 5))) = 2%nat.
Proof.
  split; [reflexivity|]. split; [reflexivity|]. split; [lia|].
  split; [reflexivity|]. split; [lia|].
  split; [apply steady_clock_simulated; lia|]. split; [reflexivity|].
  pose proof (spent_budget_gives_one_pass (simulated 10 9 100) 0 5 (-35)
                eq_refl eq_refl ltac:(lia) eq_refl ltac:(lia)
                (steady_clock_simulated 10 9 100 ltac:(lia))) as H.
  destruct (run (wait_for_service_nanoseconds (simulated 10 9 100) 1 5)) as [o tr].
  destruct H as (_ & _ & _ & H & _). apply H. reflexivity.
Defined.

(** C4, as stated, fails when the context is shut down: with the budget
    already spent (timeout 5 ns, 40 ns gone after the immediate check) and
    [rclcpp::ok()] false, the single pass returns false at its top, so the
    call makes no wait at all and only the immediate readiness query. *)
Lemma spent_budget_pass_skipped_on_shutdown :
  let env := simulated 10 9 0 in
  node_alive env /\ not_ready_at_call env /\ 0 < 5 /\
  first_budget env 5 = Some (-35) /\ -35 < 0 /\ steady_clock env /\
  run (wait_for_service_nanoseconds env 1 5) =
    (Returned false,
     [Now 0; Lock true; GetGraphEvent; ServerIsAvailable 0 false; Now 40; Ok false]) /\
  count is_wait (snd (run (wait_for_service_nanoseconds env 1 5))) <> 1%nat /\
  count is_check (snd (run (wait_for_service_nanoseconds env 1 5))) <> 2%nat.
Proof.
  split; [reflexivity|]. split; [reflexivity|]. split; [lia|].
  split; [reflexivity|]. split; [lia|].
  split; [apply steady_clock_simulated; lia|].
  split; [reflexivity|]. split; discriminate.
Qed.

(** ** Releasing the client handle *)

(** When [rcl_client_fini] fails (the [ClientBase] being alive), the deleter
    logs the error, resets the rcl error state and deletes the client; it
    returns normally. *)
Lemma client_handle_deleter_on_failure (env : Env) (h : trace) :
  rcl_client_fini env h <> RCL_RET_OK ->
  client_handle_deleter env true h =
    (Returned tt,
     [ClientFini (rcl_client_fini env h);
      LogError "rclcpp"
        ("Error in destruction of rcl client handle: " ++
         rcl_get_error_string_safe env (h ++ [ClientFini (rcl_client_fini env h)]));
      ResetError; DeleteClient]).
Proof.
  intros Hr. unfold client_handle_deleter. unfold_monad. cbn [negb].
  apply Z.eqb_neq in Hr. rewrite Hr. reflexivity.
Qed.

(** C3 (what the code does where the claim fails): in the normal release,
    with the [ClientBase] alive, when [rcl_client_fini] succeeds the deleter
    returns normally having made no other call: the [delete client]
    statement sits inside the failure branch, so the client is not
    deleted. *)
Theorem client_handle_deleter_on_success (env : Env) (h : trace) :
  rcl_client_fini env h = RCL_RET_OK ->
  client_handle_deleter env true h = (Returned tt, [ClientFini RCL_RET_OK]) /\
  count is_delete (snd (client_handle_deleter env true h)) = 0%nat.
Proof.
  intros Hr. unfold client_handle_deleter. unfold_monad. cbn [negb].
  rewrite Hr. split; reflexivity.
Qed.

Lemma client_handle_deleter_on_success_witness :
  let env := simulated 10 0 5 in
  rcl_client_fini env [] = RCL_RET_OK /\
  client_handle_deleter env true [] = (Returned tt, [ClientFini RCL_RET_OK]) /\
  count is_delete (snd (client_handle_deleter env true [])) = 0%nat.
Proof.
  split; [reflexivity|].
  apply (client_handle_deleter_on_success (simulated 10 0 5) []). reflexivity.
Defined.

(** ** Why a call ends *)

Lemma loop_false_cause env timeout start h ttw o es :
  loop_run env timeout start h ttw o es ->
  o = Returned false ->
  (exists pre, es = pre ++ [Ok false] /\ rclcpp_ok env (h ++ pre) = false) \/
  (0 <= timeout /\ exists pre t, es = pre ++ [Now t] /\ timeout <= t - start).
Proof.
  induction 1; intros E; try discriminate.
  - left. exists []. rewrite app_nil_r. split; [reflexivity|assumption].
  - right. split; [assumption|].
    exists (pass ttw RCL_RET_OK false), t. split; [reflexivity|lia].
  - destruct (IHloop_run E) as [(pre & -> & Hp)|(Hpos & pre & t' & -> & Ht)].
    + left. exists (pass ttw RCL_RET_OK false ++ Now t :: pre). split.
      * rewrite <- app_assoc. reflexivity.
      * replace (h ++ pass ttw RCL_RET_OK false ++ Now t :: pre)
          with ((h ++ pass ttw RCL_RET_OK false ++ [Now t]) ++ pre);
          [exact Hp | rewrite <- !app_assoc; reflexivity].
    + right. split; [assumption|].
      exists (pass ttw RCL_RET_OK false ++ Now t :: pre), t'. split; [|assumption].
      rewrite <- app_assoc. reflexivity.
Qed.

(** X1: a return of false has one of three causes, readable off the trace:
    the timeout was zero and the call is the bare probe; or the last call is
    a poll of [rclcpp::ok()] that answered false; or the timeout is positive
    and the last call is a clock reading at which the whole timeout has
    elapsed since [start].  The call never reports a timeout early. *)
Theorem false_only_on_probe_shutdown_or_elapsed_timeout
    (env : Env) (fuel : nat) (timeout : nanoseconds) :
  let (o, tr) := run (wait_for_service_nanoseconds env fuel timeout) in
  o = Returned false ->
  (timeout = 0 /\ tr = before_check env ++ [ServerIsAvailable RCL_RET_OK false]) \/
  (exists pre, tr = pre ++ [Ok false] /\ rclcpp_ok env pre = false) \/
  (0 < timeout /\ exists pre t, tr = pre ++ [Now t] /\ timeout <= t - start_of env).
Proof.
  pose proof (wait_for_service_call_run env fuel timeout) as H.
  destruct (run _) as [o tr]. cbn [fst snd] in H.
  destruct H as [Hd|r b Ha Hq Hr|Ha Hq|Ha Hq Ht|Ha Hq Ht Hb|d o es Ha Hq Ht Hb Hl];
    intros E; try discriminate.
  - left. split; [assumption|reflexivity].
  - right.
    destruct (loop_false_cause _ _ _ _ _ _ _ Hl E)
      as [(pre & -> & Hp)|(Hpos & pre & t & -> & Hel)].
    + left. exists (before_loop env ++ pre). split; [|exact Hp].
      rewrite <- app_assoc. reflexivity.
    + right. split; [lia|]. exists (before_loop env ++ pre), t.
      split; [|exact Hel]. rewrite <- app_assoc. reflexivity.
Qed.

Lemma false_only_on_probe_shutdown_or_elapsed_timeout_witness :
  let env := simulated 10 9 100 in
  run (wait_for_service_nanoseconds env 3 500) =
    (Returned false,
     [Now 0; Lock true; GetGraphEvent; ServerIsAvailable 0 false; Now 40;
      Ok true; WaitForGraphChange 460; CheckAndClear; ServerIsAvailable 0 false;
      Now 550]) /\
  ((500 = 0 /\
    [Now 0; Lock true; GetGraphEvent; ServerIsAvailable 0 false; Now 40;
     Ok true; WaitForGraphChange 460; CheckAndClear; ServerIsAvailable 0 false;
     Now 550] = before_check env ++ [ServerIsAvailable RCL_RET_OK false]) \/
   (exists pre,
      [Now 0; Lock true; GetGraphEvent; ServerIsAvailable 0 false; Now 40;
       Ok true; WaitForGraphChange 460; CheckAndClear; ServerIsAvailable 0 false;
       Now 550] = pre ++ [Ok false] /\ rclcpp_ok env pre = false) \/
   (0 < 500 /\
    exists pre t,
      [Now 0; Lock true; GetGraphEvent; ServerIsAvailable 0 false; Now 40;
       Ok true; WaitForGraphChange 460; CheckAndClear; ServerIsAvailable 0 false;
       Now 550] = pre ++ [Now t] /\ 500 <= t - start_of env)).
Proof.
  split; [reflexivity|].
  pose proof (false_only_on_probe_shutdown_or_elapsed_timeout (simulated 10 9 100) 3 500) as H.
  destruct (run (wait_for_service_nanoseconds (simulated 10 9 100) 3 500)) as [o tr] eqn:E.
  vm_compute in E. injection E as <- <-.
  apply H. reflexivity.
Defined.

Lemma loop_thrown_cause env timeout start h ttw o es :
  loop_run env timeout start h ttw o es ->
  forall e, o = Thrown e ->
  exists r b pre,
    e = RCLError r "rcl_service_server_is_available failed" /\
    r <> RCL_RET_OK /\ es = pre ++ [ServerIsAvailable r b].
Proof.
  induction 1; intros e E; try discriminate.
  - injection E as <-. exists r, b, [Ok true; WaitForGraphChange ttw; CheckAndClear].
    split; [reflexivity|]. split; [assumption|reflexivity].
  - destruct (IHloop_run e E) as (r & b & pre & -> & Hr & ->).
    exists r, b, (pass ttw RCL_RET_OK false ++ Now t :: pre).
    split; [reflexivity|]. split; [assumption|].
    rewrite <- app_assoc. reflexivity.
Qed.

(** X2: the call throws only two things, each with its cause in the trace:
    [InvalidNodeError], exactly when the lock of the node graph failed (the
    trace is then the clock reading and the lock); or the error built from a
    readiness query's return code, that query being the last call and its
    return code not [RCL_RET_OK]. *)
Theorem throws_only_stale_node_or_query_error
    (env : Env) (fuel : nat) (timeout : nanoseconds) :
  let (o, tr) := run (wait_for_service_nanoseconds env fuel timeout) in
  forall e, o = Thrown e ->
  (e = InvalidNodeError /\ node_graph_lock env [Now (start_of env)] = false /\
   tr = [Now (start_of env); Lock false]) \/
  (node_alive env /\
   exists r b pre,
     e = RCLError r "rcl_service_server_is_available failed" /\
     r <> RCL_RET_OK /\ tr = pre ++ [ServerIsAvailable r b]).
Proof.
  pose proof (wait_for_service_call_run env fuel timeout) as H.
  destruct (run _) as [o tr]. cbn [fst snd] in H.
  destruct H as [Hd|r b Ha Hq Hr|Ha Hq|Ha Hq Ht|Ha Hq Ht Hb|d o es Ha Hq Ht Hb Hl];
    intros e E; try discriminate.
  - injection E as <-. left. split; [reflexivity|]. split; [assumption|reflexivity].
  - injection E as <-. right. split; [assumption|].
    exists r, b, (before_check env).
    split; [reflexivity|]. split; [assumption|reflexivity].
  - right. split; [assumption|].
    destruct (loop_thrown_cause _ _ _ _ _ _ _ Hl e E) as (r & b & pre & -> & Hr & ->).
    exists r, b, (before_loop env ++ pre).
    split; [reflexivity|]. split; [assumption|].
    rewrite <- app_assoc. reflexivity.
Qed.

Lemma throws_only_stale_node_or_query_error_witness :
  run (wait_for_service_nanoseconds failing_discovery 4 (-1)) =
    (Thrown (RCLError 1 "rcl_service_server_is_available failed"),
     [Now 0; Lock true; GetGraphEvent; ServerIsAvailable 0 false; Now 10;
      Ok true; WaitForGraphChange (-11); CheckAndClear; ServerIsAvailable 1 false]) /\
  ((RCLError 1 "rcl_service_server_is_available failed" = InvalidNodeError /\
    node_graph_lock failing_discovery [Now (start_of failing_discovery)] = false /\
    [Now 0; Lock true; GetGraphEvent; ServerIsAvailable 0 false; Now 10;
     Ok true; WaitForGraphChange (-11); CheckAndClear; ServerIsAvailable 1 false] =
      [Now (start_of failing_discovery); Lock false]) \/
   (node_alive failing_discovery /\
    exists r b pre,
      RCLError 1 "rcl_service_server_is_available failed" =
        RCLError r "rcl_service_server_is_available failed" /\
      r <> RCL_RET_OK /\
      [Now 0; Lock true; GetGraphEvent; ServerIsAvailable 0 false; Now 10;
       Ok true; WaitForGraphChange (-11); CheckAndClear; ServerIsAvailable 1 false] =
        pre ++ [ServerIsAvailable r b])).
Proof.
  split; [reflexivity|].
  pose proof (throws_only_stale_node_or_query_error failing_discovery 4 (-1)) as H.
  destruct (run (wait_for_service_nanoseconds failing_discovery 4 (-1))) as [o tr] eqn:E.
  vm_compute in E. injection E as <- <-.
  apply H. reflexivity.
Defined.

Lemma loop_stops_at_ready env timeout start h ttw o es :
  loop_run env timeout start h ttw o es -> stops_at_ready o es.
Proof.
  induction 1; unfold pass; cbn; auto.
  destruct (r =? RCL_RET_OK) eqn:E; [apply Z.eqb_eq in E; contradiction|].
  cbn. exact I.
Qed.

Lemma call_stops_at_ready env timeout o tr :
  call_run env timeout o tr -> stops_at_ready o tr.
Proof.
  destruct 1; unfold before_loop, before_check; cbn; auto.
  - destruct (r =? RCL_RET_OK) eqn:E; [apply Z.eqb_eq in E; contradiction|].
    cbn. exact I.
  - eapply loop_stops_at_ready; eassumption.
Qed.

Lemma stops_at_ready_split (o : outcome bool) (pre post : trace) :
  stops_at_ready o (pre ++ ServerIsAvailable RCL_RET_OK true :: post) ->
  post = [] /\ o = Returned true.
Proof.
  intros H. induction pre as [|c pre IH]; cbn in H.
  - exact H.
  - destruct c as [| | |r' b'| | | | | | |]; auto.
    destruct ((r' =? RCL_RET_OK) && b'); auto.
    destruct H as [H _]. destruct pre; discriminate.
Qed.

(** X3: wherever a successful readiness query that answers "ready" stands in
    the trace of a call, it is the last call, and the call returns true: the
    first sighting of the server ends the wait, whatever the shutdown signal
    or the clock say afterwards. *)
Theorem ready_answer_ends_the_call (env : Env) (fuel : nat) (timeout : nanoseconds) :
  let (o, tr) := run (wait_for_service_nanoseconds env fuel timeout) in
  forall pre post,
    tr = pre ++ ServerIsAvailable RCL_RET_OK true :: post ->
    post = [] /\ o = Returned true.
Proof.
  pose proof (wait_for_service_call_run env fuel timeout) as H.
  destruct (run _) as [o tr]. cbn [fst snd] in H.
  intros pre post ->.
  apply call_stops_at_ready in H.
  eapply stops_at_ready_split; eassumption.
Qed.

Lemma ready_answer_ends_the_call_witness :
  run (wait_for_service_nanoseconds slow_discovery 5 1000) =
    (Returned true,
     [Now 0; Lock true; GetGraphEvent; ServerIsAvailable 0 false; Now 10;
      Ok true; WaitForGraphChange 990; CheckAndClear; ServerIsAvailable 0 false; Now 20;
      Ok true; WaitForGraphChange 980; CheckAndClear] ++
     ServerIsAvailable RCL_RET_OK true :: []) /\
  ([] : trace) = [] /\ Returned true = (Returned true : outcome bool).
Proof.
  split; [reflexivity|].
  pose proof (ready_answer_ends_the_call slow_discovery 5 1000) as H.
  destruct (run (wait_for_service_nanoseconds slow_discovery 5 1000)) as [o tr] eqn:E.
  vm_compute in E. injection E as <- <-.
  apply (H [Now 0; Lock true; GetGraphEvent; ServerIsAvailable 0 false; Now 10;
            Ok true; WaitForGraphChange 990; CheckAndClear; ServerIsAvailable 0 false;
            Now 20; Ok true; WaitForGraphChange 980; CheckAndClear] []).
  reflexivity.
Defined.

(** ** The graph event is made once *)

Lemma loop_makes_no_event env timeout start h ttw o es :
  loop_run env timeout start h ttw o es ->
  count is_lock es = 0%nat /\ count is_get_event es = 0%nat.
Proof.
  induction 1; unfold pass; cbn [app]; rewrite ?count_cons; cbn; auto.
Qed.

(** X4: however many passes the loop makes, a call locks the node graph
    exactly once and asks it for a graph event at most once (exactly once
    when the lock succeeds): the event is reused by every wait, and it is
    obtained before the first readiness query. *)
Theorem graph_event_made_once (env : Env) (fuel : nat) (timeout : nanoseconds) :
  let (o, tr) := run (wait_for_service_nanoseconds env fuel timeout) in
  count is_lock tr = 1%nat /\
  count is_get_event tr =
    (if node_graph_lock env [Now (start_of env)] then 1 else 0)%nat /\
  (forall pre r b post,
     tr = pre ++ ServerIsAvailable r b :: post -> count is_get_event pre = 1%nat).
Proof.
  pose proof (wait_for_service_call_run env fuel timeout) as H.
  destruct (run _) as [o tr]. cbn [fst snd] in H.
  assert (Hpre : forall es pre r b post,
            count is_get_event es = 0%nat ->
            before_check env ++ es = pre ++ ServerIsAvailable r b :: post ->
            count is_get_event pre = 1%nat).
  { intros es pre r b post Hes E.
    assert (Hc : count is_get_event (pre ++ ServerIsAvailable r b :: post) = 1%nat)
      by (rewrite <- E, count_app, Hes; reflexivity).
    destruct pre as [|c0 [|c1 [|c2 pre]]]; try discriminate E.
    cbn in E. injection E as <- <- <- E.
    rewrite count_app in Hc. rewrite !count_cons in *. cbn in *. lia. }
  destruct H as [Hd|r b Ha Hq Hr|Ha Hq|Ha Hq Ht|Ha Hq Ht Hb|d o es Ha Hq Ht Hb Hl];
    try (unfold node_alive in Ha; rewrite Ha); try rewrite Hd.
  - split; [reflexivity|]. split; [reflexivity|].
    intros pre r b post E. destruct pre as [|c0 [|c1 [|c2 pre]]]; discriminate E.
  - split; [reflexivity|]. split; [reflexivity|].
    intros pre r' b' post E. eapply Hpre; [|exact E]. reflexivity.
  - split; [reflexivity|]. split; [reflexivity|].
    intros pre r' b' post E. eapply Hpre; [|exact E]. reflexivity.
  - split; [reflexivity|]. split; [reflexivity|].
    intros pre r' b' post E. eapply Hpre; [|exact E]. reflexivity.
  - split; [reflexivity|]. split; [reflexivity|].
    intros pre r' b' post E. unfold before_loop in E. eapply Hpre; [|exact E]. reflexivity.
  - destruct (loop_makes_no_event _ _ _ _ _ _ _ Hl) as [Hl1 Hl2].
    split; [rewrite count_app, Hl1; reflexivity|].
    split; [rewrite count_app, Hl2; reflexivity|].
    intros pre r' b' post E. unfold before_loop in E. rewrite <- app_assoc in E.
    eapply Hpre; [|exact E]. rewrite count_app, Hl2. reflexivity.
Qed.

Lemma graph_event_made_once_witness :
  run (wait_for_service_nanoseconds slow_discovery 5 1000) =
    (Returned true,
     [Now 0; Lock true; GetGraphEvent; ServerIsAvailable 0 false; Now 10;
      Ok true; WaitForGraphChange 990; CheckAndClear] ++
     ServerIsAvailable 0 false ::
     [Now 20; Ok true; WaitForGraphChange 980; CheckAndClear; ServerIsAvailable 0 true]) /\
  count is_get_event
    [Now 0; Lock true; GetGraphEvent; ServerIsAvailable 0 false; Now 10;
     Ok true; WaitForGraphChange 990; CheckAndClear] = 1%nat.
Proof.
  split; [reflexivity|].
  pose proof (graph_event_made_once slow_discovery 5 1000) as H.
  destruct (run (wait_for_service_nanoseconds slow_discovery 5 1000)) as [o tr] eqn:E.
  vm_compute in E. injection E as <- <-.
  destruct H as (_ & _ & H).
  apply (H _ 0 false
           [Now 20; Ok true; WaitForGraphChange 980; CheckAndClear; ServerIsAvailable 0 true]).
  reflexivity.
Defined.

(** ** Positive timeouts *)

Lemma loop_waits_within env timeout start h ttw o es :
  loop_run env timeout start h ttw o es ->
  0 < timeout ->
  forall last,
    ttw = Z.max 0 (timeout - (last - start)) ->
    waits_within timeout start last es.
Proof.
  induction 1; intros Hpos last Httw; unfold pass; cbn; auto.
  split; [assumption|]. apply IHloop_run; [assumption|]. lia.
Qed.

Lemma waits_within_split (timeout start : nanoseconds) (pre post : trace) d :
  forall last,
    waits_within timeout start last (pre ++ WaitForGraphChange d :: post) ->
    d = Z.max 0 (timeout - (latest_reading pre last - start)).
Proof.
  induction pre as [|c pre IH]; intros last H; cbn in H.
  - cbn. tauto.
  - destruct c; cbn; auto. destruct H as [_ H]. auto.
Qed.

Lemma latest_reading_after_start (env : Env) (tr : trace) :
  steady_clock env ->
  forall h t0,
    start_of env <= t0 ->
    (forall pre t post, tr = pre ++ Now t :: post -> t = steady_clock_now env (h ++ pre)) ->
    start_of env <= latest_reading tr t0.
Proof.
  intros Hs. induction tr as [|c tr IH]; intros h t0 Ht0 Hnow; [exact Ht0|].
  assert (Hnow' : forall pre t post,
            tr = pre ++ Now t :: post -> t = steady_clock_now env ((h ++ [c]) ++ pre)).
  { intros pre t post ->. rewrite <- app_assoc. apply (Hnow (c :: pre) t post). reflexivity. }
  destruct c; cbn; try (apply (IH (h ++ [_]) t0 Ht0 Hnow')).
  apply (IH (h ++ [Now t]) t); [|exact Hnow'].
  rewrite (Hnow [] t tr eq_refl). apply steady_after_start. assumption.
Qed.

Lemma loop_readings_from_clock env timeout start h ttw o es :
  loop_run env timeout start h ttw o es ->
  forall pre t post, es = pre ++ Now t :: post -> t = steady_clock_now env (h ++ pre).
Proof.
  induction 1; intros pre t' post E.
  - destruct pre; discriminate.
  - destruct pre as [|? [|? ?]]; discriminate.
  - unfold pass in E.
    destruct pre as [|? [|? [|? [|? [|? ?]]]]]; discriminate.
  - unfold pass in E.
    destruct pre as [|? [|? [|? [|? [|? ?]]]]]; discriminate.
  - unfold pass in E. cbn in E.
    destruct pre as [|? [|? [|? [|? [|? [|? ?]]]]]]; try discriminate.
    cbn in E. injection E as <- <- <- <- <-. subst t. reflexivity.
  - unfold pass in E. cbn in E.
    destruct pre as [|? [|? [|? [|? [|? [|? ?]]]]]]; try discriminate.
    cbn in E. injection E as <- <- <- <- <-. subst t. reflexivity.
  - unfold pass in E. cbn in E.
    destruct pre as [|c0 [|c1 [|c2 [|c3 [|c4 pre]]]]]; try discriminate.
    + cbn in E. injection E as <- <- <- <- <- _. subst t. reflexivity.
    + cbn in E. injection E as <- <- <- <- <- E.
      rewrite (IHloop_run pre t' post E). f_equal.
      unfold pass. rewrite <- !app_assoc. reflexivity.
Qed.

Lemma call_readings_from_clock env timeout o tr :
  call_run env timeout o tr ->
  forall pre t post, tr = pre ++ Now t :: post -> t = steady_clock_now env pre.
Proof.
  intros H pre t post E.
  assert (Hhead : forall es,
            (forall pre' t' post',
               es = pre' ++ Now t' :: post' ->
               t' = steady_clock_now env
                      ([Now (start_of env); Lock true; GetGraphEvent] ++ pre')) ->
            [Now (start_of env); Lock true; GetGraphEvent] ++ es = pre ++ Now t :: post ->
            t = steady_clock_now env pre).
  { intros es Hes E'.
    destruct pre as [|c0 [|c1 [|c2 pre]]]; try discriminate E'.
    - cbn in E'. injection E' as <- _. reflexivity.
    - cbn in E'. injection E' as <- <- <- E'. apply (Hes pre t post E'). }
  destruct H as [Hd|r b Ha Hq Hr|Ha Hq|Ha Hq Ht|Ha Hq Ht Hb|d o es Ha Hq Ht Hb Hl].
  - destruct pre as [|c0 [|c1 [|c2 pre]]]; try discriminate E.
    cbn in E. injection E as <- _. reflexivity.
  - eapply Hhead; [|exact E].
    intros pre' t' post' E'. destruct pre' as [|? [|? ?]]; discriminate.
  - eapply Hhead; [|exact E].
    intros pre' t' post' E'. destruct pre' as [|? [|? ?]]; discriminate.
  - eapply Hhead; [|exact E].
    intros pre' t' post' E'. destruct pre' as [|? [|? ?]]; discriminate.
  - unfold before_loop in E. eapply Hhead; [|exact E].
    intros pre' t' post' E'.
    destruct pre' as [|? [|? [|? ?]]]; try discriminate.
    cbn in E'. injection E' as <- <-. reflexivity.
  - unfold before_loop in E. rewrite <- app_assoc in E. eapply Hhead; [|exact E].
    intros pre' t' post' E'.
    destruct pre' as [|c0 [|c1 pre']]; try discriminate.
    + cbn in E'. injection E' as <- <- _. reflexivity.
    + cbn in E'. injection E' as <- <- E'.
      rewrite (loop_readings_from_clock _ _ _ _ _ _ _ Hl pre' t' post' E').
      unfold before_loop, before_check. reflexivity.
Qed.

Lemma call_starts_with_clock env timeout o tr :
  call_run env timeout o tr -> exists rest, tr = Now (start_of env) :: rest.
Proof.
  destruct 1; unfold before_loop, before_check; cbn; eexists; reflexivity.
Qed.

(** X5: in every call with a positive timeout and a steady clock, each wait
    on the graph event is given what is left of the timeout at the most
    recent clock reading, or zero when nothing is left: the duration is
    never negative and never longer than the timeout. *)
Theorem positive_timeout_waits_within_budget
    (env : Env) (fuel : nat) (timeout : nanoseconds) :
  0 < timeout -> steady_clock env ->
  let (o, tr) := run (wait_for_service_nanoseconds env fuel timeout) in
  forall pre d post,
    tr = pre ++ WaitForGraphChange d :: post ->
    d = Z.max 0 (timeout - (latest_reading pre 0 - start_of env)) /\
    0 <= d <= timeout.
Proof.
  intros Hpos Hs.
  pose proof (wait_for_service_call_run env fuel timeout) as H.
  destruct (run _) as [o tr]. cbn [fst snd] in H.
  intros pre d post E.
  assert (Hd : d = Z.max 0 (timeout - (latest_reading pre 0 - start_of env))).
  { subst tr. apply (waits_within_split timeout (start_of env) pre post d 0).
    remember (pre ++ WaitForGraphChange d :: post) as tr eqn:Etr. clear Etr.
    destruct H as [Hd|r b Ha Hq Hr|Ha Hq|Ha Hq Ht|Ha Hq Ht Hb|d0 o es Ha Hq Ht Hb Hl];
      unfold before_loop, before_check; cbn; auto.
    eapply loop_waits_within; try eassumption.
    unfold first_budget in Hb.
    destruct (chrono_sub _ (start_of env)) as [e|] eqn:He; [|discriminate].
    apply chrono_sub_Some in He. destruct He as [-> _].
    apply chrono_sub_Some in Hb. destruct Hb as [-> _].
    unfold clamp.
    destruct ((timeout >? 0) && (_ <? 0)) eqn:Hc.
    - apply andb_true_iff in Hc. unfold before_check in Hc. cbn in Hc |- *. lia.
    - apply andb_false_iff in Hc. unfold before_check in Hc. cbn in Hc |- *. lia. }
  split; [exact Hd|].
  assert (Hge : start_of env <= latest_reading pre (start_of env)).
  { apply (latest_reading_after_start env pre Hs []); [lia|].
    intros pre' t post' E'. cbn.
    apply (call_readings_from_clock env timeout o tr H pre' t
             (post' ++ WaitForGraphChange d :: post)).
    rewrite E, E', <- app_assoc. reflexivity. }
  assert (Hsame : latest_reading pre 0 = latest_reading pre (start_of env)).
  { destruct (call_starts_with_clock env timeout o tr H) as [rest Hrest].
    rewrite Hrest in E. destruct pre as [|c0 pre]; [discriminate|].
    cbn in E. injection E as <- _. reflexivity. }
  lia.
Qed.

Lemma positive_timeout_waits_within_budget_witness :
  let env := simulated 10 9 100 in
  0 < 500 /\ steady_clock env /\
  run (wait_for_service_nanoseconds env 3 500) =
    (Returned false,
     [Now 0; Lock true; GetGraphEvent; ServerIsAvailable 0 false; Now 40; Ok true] ++
     WaitForGraphChange 460 :: [CheckAndClear; ServerIsAvailable 0 false; Now 550]) /\
  (460 = Z.max 0 (500 - (latest_reading
                           [Now 0; Lock true; GetGraphEvent; ServerIsAvailable 0 false;
                            Now 40; Ok true] 0 - start_of env)) /\
   0 <= 460 <= 500).
Proof.
  split; [lia|]. split; [apply steady_clock_simulated; lia|]. split; [reflexivity|].
  pose proof (positive_timeout_waits_within_budget (simulated 10 9 100) 3 500
                ltac:(lia) (steady_clock_simulated 10 9 100 ltac:(lia))) as H.
  destruct (run (wait_for_service_nanoseconds (simulated 10 9 100) 3 500)) as [o tr] eqn:E.
  vm_compute in E. injection E as <- <-.
  apply (H _ 460 [CheckAndClear; ServerIsAvailable 0 false; Now 550]). reflexivity.
Defined.

Lemma ticking_simulated (tick : nanoseconds) (ready_at shutdown_at : nat) :
  0 <= tick -> ticking (simulated tick ready_at shutdown_at) tick.
Proof.
  intros Ht h c h'. cbn [simulated steady_clock_now].
  rewrite sim_time_app. pose proof (sim_time_nonneg tick h' Ht).
  destruct c; cbn [sim_time]; lia.
Qed.

Lemma do_while_terminates env timeout start tick :
  0 <= timeout -> 0 < tick -> ticking env tick ->
  forall fuel hp t ttw,
    t = steady_clock_now env hp ->
    timeout - (t - start) <= Z.of_nat fuel * tick ->
    fst (do_while env (S fuel) timeout start ttw (hp ++ [Now t])) <> OutOfFuel.
Proof.
  intros Hpos Htick Hticking.
  induction fuel as [|fuel IH]; intros hp t ttw Ht Hbudget; rewrite do_while_S;
    (destruct (rclcpp_ok env _); [|discriminate]); cbn zeta;
    destruct (rcl_service_server_is_available env _) as [r b]; cbn [fst snd];
    (destruct (r =? RCL_RET_OK); [|discriminate]);
    (destruct b; [discriminate|]);
    pose proof (Hticking hp (Now t)
                  [Ok true; WaitForGraphChange ttw; CheckAndClear;
                   ServerIsAvailable r false]) as Hadv;
    rewrite <- (app_assoc hp [Now t]); cbn [app];
    (destruct (chrono_sub _ start) as [e|] eqn:He; [|discriminate]);
    apply chrono_sub_Some in He; destruct He as [-> _];
    (destruct (chrono_sub timeout _) as [d|] eqn:Hd; [|discriminate]);
    apply chrono_sub_Some in Hd; destruct Hd as [-> _];
    (destruct ((_ >? 0) || (timeout <? 0)) eqn:Hc; [|discriminate]);
    apply orb_true_iff in Hc.
  - exfalso. lia.
  - match goal with
    | |- context [do_while env (S fuel) timeout start ?d ?h'] =>
        assert (Hh : h' = (hp ++ [Now t; Ok true; WaitForGraphChange ttw; CheckAndClear;
                                  ServerIsAvailable r false]) ++
                          [Now (steady_clock_now env
                                  (hp ++ [Now t; Ok true; WaitForGraphChange ttw;
                                          CheckAndClear; ServerIsAvailable r false]))])
          by (rewrite <- !app_assoc; reflexivity);
        rewrite Hh;
        pose proof (IH (hp ++ [Now t; Ok true; WaitForGraphChange ttw; CheckAndClear;
                               ServerIsAvailable r false])
                      _ d eq_refl) as IH'
    end.
    destruct (do_while env (S fuel) timeout start _ _) as [o es]. cbn [fst] in *.
    apply IH'. lia.
Qed.

(** X6: a bounded wait ends.  With a timeout that is not negative and a
    clock that advances at least [tick > 0] with every call, the loop is left
    after at most [timeout / tick + 1] passes: given that much fuel the call
    is never still running. *)
Theorem bounded_wait_terminates
    (env : Env) (fuel : nat) (timeout tick : nanoseconds) :
  0 <= timeout -> 0 < tick -> ticking env tick ->
  timeout <= Z.of_nat fuel * tick ->
  fst (run (wait_for_service_nanoseconds env (S fuel) timeout)) <> OutOfFuel.
Proof.
  intros Hpos Htick Hticking Hfuel.
  rewrite wait_for_service_unfold. cbn zeta.
  destruct (node_graph_lock env _); [|discriminate].
  destruct (first_answer env) as [r b]. cbn [fst snd].
  destruct (r =? RCL_RET_OK); [|discriminate].
  destruct b; [discriminate|].
  destruct (timeout =? 0); [discriminate|].
  pose proof (Hticking [] (Now (start_of env))
                [Lock true; GetGraphEvent; ServerIsAvailable r false]) as Hadv.
  unfold before_check. cbn [app] in Hadv |- *. fold (start_of env) in Hadv.
  destruct (chrono_sub _ (start_of env)) as [e|] eqn:He; [|discriminate].
  apply chrono_sub_Some in He. destruct He as [-> _].
  destruct (chrono_sub timeout _) as [d|] eqn:Hd; [|discriminate].
  apply chrono_sub_Some in Hd. destruct Hd as [-> _].
  match goal with
  | |- context [do_while env (S fuel) timeout (start_of env) ?w ?h'] =>
      pose proof (do_while_terminates env timeout (start_of env) tick Hpos Htick Hticking
                    fuel [Now (start_of env); Lock true; GetGraphEvent;
                          ServerIsAvailable r false] _ w eq_refl) as Hloop
  end.
  cbn [app] in Hloop.
  destruct (do_while env (S fuel) timeout (start_of env) _ _) as [o es].
  cbn [fst] in *. apply Hloop. lia.
Qed.

Lemma bounded_wait_terminates_witness :
  0 <= 500 /\ 0 < 10 /\ ticking (simulated 10 9 100) 10 /\ 500 <= Z.of_nat 50 * 10 /\
  fst (run (wait_for_service_nanoseconds (simulated 10 9 100) 51 500)) <> OutOfFuel.
Proof.
  split; [lia|]. split; [lia|]. split; [apply ticking_simulated; lia|]. split; [lia|].
  apply (bounded_wait_terminates (simulated 10 9 100) 50 500 10);
    [lia|lia|apply ticking_simulated; lia|lia].
Defined.

(** ** Waiting until the server appears *)

Lemma do_while_until_ready env timeout k :
  timeout < 0 -> never_shut_down env -> ready_from env k ->
  chrono_in_range env timeout ->
  forall m fuel h ttw,
    (count is_check h + m = k)%nat -> (m < fuel)%nat ->
    exists es,
      do_while env fuel timeout (start_of env) ttw h = (Returned true, es) /\
      count is_wait es = S m.
Proof.
  intros Hneg Hup Hready Hrange.
  induction m as [|m IH]; intros fuel h ttw Hk Hfuel;
    (destruct fuel as [|fuel]; [lia|]); rewrite do_while_S, Hup; cbn zeta;
    rewrite Hready; cbn [fst snd];
    change (RCL_RET_OK =? RCL_RET_OK) with true; cbn iota;
    rewrite count_app; cbn [count filter is_check List.length].
  - replace (Nat.leb k (count is_check h + 0)) with true
      by (symmetry; apply Nat.leb_le; lia).
    eexists. split; reflexivity.
  - replace (Nat.leb k (count is_check h + 0)) with false
      by (symmetry; apply Nat.leb_gt; lia).
    match goal with
    | |- context [chrono_sub (steady_clock_now env ?h1) _] =>
        destruct (Hrange h1) as [H1 H2]
    end.
    unfold chrono_sub. rewrite H1, H2.
    replace (timeout <? 0) with true by (symmetry; lia). rewrite orb_true_r.
    match goal with
    | |- context [do_while env fuel timeout (start_of env) ?d ?h'] =>
        destruct (IH fuel h' d) as (es & Hes & Hw)
    end.
    + rewrite !count_app. cbn. lia.
    + lia.
    + rewrite Hes. eexists. split; [reflexivity|].
      cbn [app]. rewrite !count_cons. cbn. rewrite Hw. reflexivity.
Qed.

(** X7: an unbounded wait succeeds once the server is there.  With a
    negative timeout, a live node, no shutdown and a server that first
    answers "ready" at query number [k] (the chrono arithmetic staying in
    range), the call returns true for every fuel of at least [k], having
    made exactly [k] waits. *)
Theorem unbounded_wait_returns_true_when_server_appears
    (env : Env) (timeout : nanoseconds) (k fuel : nat) :
  timeout < 0 -> node_alive env -> never_shut_down env -> ready_from env k ->
  chrono_in_range env timeout -> (k <= fuel)%nat ->
  exists tr,
    run (wait_for_service_nanoseconds env fuel timeout) = (Returned true, tr) /\
    count is_wait tr = k.
Proof.
  intros Hneg Halive Hup Hready Hrange Hfuel.
  rewrite wait_for_service_unfold. cbn zeta.
  unfold node_alive in Halive. rewrite Halive.
  unfold first_answer. rewrite Hready. cbn [fst snd].
  change (RCL_RET_OK =? RCL_RET_OK) with true. cbn iota.
  change (count is_check (before_check env)) with 0%nat.
  destruct k as [|k].
  - cbn. eexists. split; reflexivity.
  - cbn [Nat.leb].
    replace (timeout =? 0) with false by (symmetry; lia).
    destruct (Hrange (before_check env ++ [ServerIsAvailable RCL_RET_OK false]))
      as [H1 H2].
    unfold chrono_sub. rewrite H1, H2.
    match goal with
    | |- context [do_while env fuel timeout (start_of env) ?d ?h'] =>
        destruct (do_while_until_ready env timeout (S k) Hneg Hup Hready Hrange
                    k fuel h' d) as (es & Hes & Hw)
    end.
    + reflexivity.
    + lia.
    + rewrite Hes. eexists. split; [reflexivity|].
      rewrite count_app. cbn. exact Hw.
Qed.

Lemma ready_from_late_server : ready_from late_server 2.
Proof. intros h. reflexivity. Qed.

Lemma chrono_in_range_late_server : chrono_in_range late_server (-1).
Proof.
  intros h. unfold start_of, late_server, scripted.
  cbn [steady_clock_now].
  pose proof (Nat.le_min_r (count is_now h) 100) as Hh.
  pose proof (Nat.le_min_r (count is_now []) 100) as H0.
  set (a := Nat.min (count is_now h) 100) in *.
  set (b := Nat.min (count is_now []) 100) in *.
  split; apply in_int64_small; lia.
Qed.

Lemma unbounded_wait_returns_true_when_server_appears_witness :
  -1 < 0 /\ node_alive late_server /\ never_shut_down late_server /\
  ready_from late_server 2 /\ chrono_in_range late_server (-1) /\ (2 <= 2)%nat /\
  exists tr,
    run (wait_for_service_nanoseconds late_server 2 (-1)) = (Returned true, tr) /\
    count is_wait tr = 2%nat.
Proof.
  split; [lia|]. split; [reflexivity|]. split; [intros h; reflexivity|].
  split; [exact ready_from_late_server|].
  split; [exact chrono_in_range_late_server|]. split; [lia|].
  apply (unbounded_wait_returns_true_when_server_appears late_server (-1) 2 2).
  - lia.
  - reflexivity.
  - intros h. reflexivity.
  - exact ready_from_late_server.
  - exact chrono_in_range_late_server.
  - lia.
Defined.

(** ** Waits that run their full length *)

Lemma waits_block_simulated (tick : nanoseconds) (ready_at shutdown_at : nat) :
  0 <= tick -> waits_block (simulated tick ready_at shutdown_at).
Proof.
  intros Ht h pre d post Hd. cbn [simulated steady_clock_now].
  rewrite !sim_time_app. cbn [sim_time].
  pose proof (sim_time_nonneg tick pre Ht).
  pose proof (sim_time_nonneg tick post Ht). lia.
Qed.

(** X8: when no graph change arrives, so that a wait blocks for the whole
    duration it is given, a call with a positive timeout whose immediate
    query answers "not ready" goes through the loop body once only: at most
    one poll of [rclcpp::ok()], one wait and one re-check, and one unit of
    fuel is enough for it to end. *)
Theorem full_length_wait_is_not_repeated (env : Env) (n : nat) (timeout : nanoseconds) :
  0 < timeout -> node_alive env -> not_ready_at_call env -> waits_block env ->
  let (o, tr) := run (wait_for_service_nanoseconds env (S n) timeout) in
  o <> OutOfFuel /\
  (count is_poll tr <= 1)%nat /\ (count is_wait tr <= 1)%nat /\
  (count is_check tr <= 2)%nat.
Proof.
  unfold node_alive, not_ready_at_call.
  intros Hpos Halive Hq Hblock.
  rewrite wait_for_service_unfold. cbn zeta. rewrite Halive, Hq. cbn [fst snd].
  change (RCL_RET_OK =? RCL_RET_OK) with true. cbn iota.
  replace (timeout =? 0) with false by (symmetry; lia).
  unfold before_check. cbn [app].
  destruct (chrono_sub _ (start_of env)) as [e|] eqn:He;
    [|repeat split; try discriminate; cbn; lia].
  apply chrono_sub_Some in He. destruct He as [-> _].
  destruct (chrono_sub timeout _) as [d|] eqn:Hd;
    [|repeat split; try discriminate; cbn; lia].
  apply chrono_sub_Some in Hd. destruct Hd as [Hd _].
  fold (clamp timeout d).
  assert (Hclamp : 0 <= clamp timeout d /\ d <= clamp timeout d).
  { unfold clamp. destruct ((timeout >? 0) && (d <? 0)) eqn:Hc.
    - apply andb_true_iff in Hc. lia.
    - apply andb_false_iff in Hc. lia. }
  rewrite do_while_S.
  destruct (rclcpp_ok env _); [|repeat split; try discriminate; cbn; lia].
  cbn zeta.
  destruct (rcl_service_server_is_available env _) as [r b]. cbn [fst snd].
  destruct (r =? RCL_RET_OK); [|repeat split; try discriminate; cbn; lia].
  destruct b; [repeat split; try discriminate; cbn; lia|].
  pose proof (Hblock
                [Now (start_of env); Lock true; GetGraphEvent;
                 ServerIsAvailable RCL_RET_OK false]
                [Now (steady_clock_now env
                        [Now (start_of env); Lock true; GetGraphEvent;
                         ServerIsAvailable RCL_RET_OK false]); Ok true]
                (clamp timeout d)
                [CheckAndClear; ServerIsAvailable r false]
                (proj1 Hclamp)) as Hlate.
  cbn [app] in Hlate |- *.
  destruct (chrono_sub _ (start_of env)) as [e2|] eqn:He2;
    [|repeat split; try discriminate; cbn; lia].
  apply chrono_sub_Some in He2. destruct He2 as [-> _].
  destruct (chrono_sub timeout _) as [d2|] eqn:Hd2;
    [|repeat split; try discriminate; cbn; lia].
  apply chrono_sub_Some in Hd2. destruct Hd2 as [-> _].
  unfold clamp in *.
  destruct ((timeout >? 0) && (d <? 0));
    (replace ((_ >? 0) || (timeout <? 0)) with false
       by (symmetry; apply orb_false_iff; split; lia));
    repeat split; try discriminate; cbn; lia.
Qed.

Lemma full_length_wait_is_not_repeated_witness :
  let env := simulated 10 9 100 in
  0 < 50000000 /\ node_alive env /\ not_ready_at_call env /\ waits_block env /\
  (let (o, tr) := run (wait_for_service_nanoseconds env 1 50000000) in
   o <> OutOfFuel /\
   (count is_poll tr <= 1)%nat /\ (count is_wait tr <= 1)%nat /\
   (count is_check tr <= 2)%nat).
Proof.
  split; [lia|]. split; [reflexivity|]. split; [reflexivity|].
  split; [apply waits_block_simulated; lia|].
  apply (full_length_wait_is_not_repeated (simulated 10 9 100) 0 50000000);
    [lia|reflexivity|reflexivity|apply waits_block_simulated; lia].
Defined.

(** ** A zero timeout is a probe *)

(** X9: on a live node, a call with timeout zero is [service_is_ready] run
    after the clock reading, the lock and the making of the graph event: it
    ends as [service_is_ready] ends (returning its answer or throwing its
    error) and makes no other call. *)
Theorem zero_timeout_is_service_is_ready (env : Env) (fuel : nat) :
  node_alive env ->
  run (wait_for_service_nanoseconds env fuel 0) =
    (let (o, es) := service_is_ready env (before_check env) in
     (o, before_check env ++ es)).
Proof.
  unfold node_alive. intros Halive.
  rewrite wait_for_service_unfold. cbn zeta. rewrite Halive.
  unfold first_answer, service_is_ready. unfold_monad.
  destruct (rcl_service_server_is_available env _) as [r b]. cbn [fst snd].
  destruct (r =? RCL_RET_OK); cbn; [|reflexivity].
  destruct b; reflexivity.
Qed.

Lemma zero_timeout_is_service_is_ready_witness :
  node_alive failing_discovery /\
  run (wait_for_service_nanoseconds failing_discovery 0 0) =
    (let (o, es) := service_is_ready failing_discovery (before_check failing_discovery) in
     (o, before_check failing_discovery ++ es)).
Proof.
  split; [reflexivity|].
  apply (zero_timeout_is_service_is_ready failing_discovery 0). reflexivity.
Defined.

(** ** What the deleter can do *)



(** ** No wait without a fresh poll *)

Lemma split_after_prefix (p : call -> bool) (x : call) :
  p x = true ->
  forall pfx, count p pfx = 0%nat ->
  forall es pre post,
    pfx ++ es = pre ++ x :: post ->
    exists pre', pre = pfx ++ pre' /\ es = pre' ++ x :: post.
Proof.
  intros Hx. induction pfx as [|c pfx IH]; intros Hc es pre post E.
  - exists pre. split; [reflexivity|exact E].
  - rewrite count_cons in Hc.
    destruct pre as [|c' pre].
    + cbn in E. injection E as -> _. rewrite Hx in Hc. discriminate.
    + cbn in E. injection E as -> E.
      destruct (IH ltac:(lia) es pre post E) as (pre' & -> & ->).
      exists pre'. split; reflexivity.
Qed.

Lemma loop_polls_before_wait env timeout start h ttw o es :
  loop_run env timeout start h ttw o es ->
  forall pre d post,
    es = pre ++ WaitForGraphChange d :: post ->
    exists pre', pre = pre' ++ [Ok true] /\ rclcpp_ok env (h ++ pre') = true.
Proof.
  assert (Hpass : forall (h0 : trace) w r b rest pre d post,
            rclcpp_ok env h0 = true ->
            pass w r b ++ rest = pre ++ WaitForGraphChange d :: post ->
            (pre = [Ok true] /\ rclcpp_ok env (h0 ++ []) = true) \/
            (exists pre2,
               pre = pass w r b ++ pre2 /\ rest = pre2 ++ WaitForGraphChange d :: post)).
  { intros h0 w r b rest pre d post Hok E. unfold pass in *. cbn in E.
    destruct pre as [|c0 [|c1 pre]]; [discriminate| |].
    - cbn in E. injection E as <- _ _. left. rewrite app_nil_r. split; [reflexivity|exact Hok].
    - cbn in E. injection E as <- <- E. right.
      destruct (split_after_prefix is_wait (WaitForGraphChange d) eq_refl
                  [CheckAndClear; ServerIsAvailable r b] eq_refl rest pre post E)
        as (pre2 & -> & ->).
      exists pre2. split; reflexivity. }
  induction 1; intros pre d post E.
  - destruct pre; discriminate.
  - destruct pre as [|? [|? ?]]; discriminate.
  - rewrite <- (app_nil_r (pass ttw r b)) in E.
    destruct (Hpass h _ _ _ _ _ _ _ H E) as [[-> Hp]|(pre2 & _ & E2)].
    + exists []. split; [reflexivity|exact Hp].
    + destruct pre2; discriminate.
  - rewrite <- (app_nil_r (pass ttw RCL_RET_OK true)) in E.
    destruct (Hpass h _ _ _ _ _ _ _ H E) as [[-> Hp]|(pre2 & _ & E2)].
    + exists []. split; [reflexivity|exact Hp].
    + destruct pre2; discriminate.
  - destruct (Hpass h _ _ _ _ _ _ _ H E) as [[-> Hp]|(pre2 & _ & E2)].
    + exists []. split; [reflexivity|exact Hp].
    + destruct pre2 as [|? [|? ?]]; discriminate.
  - destruct (Hpass h _ _ _ _ _ _ _ H E) as [[-> Hp]|(pre2 & _ & E2)].
    + exists []. split; [reflexivity|exact Hp].
    + destruct pre2 as [|? [|? ?]]; discriminate.
  - destruct (Hpass h _ _ _ _ _ _ _ H E) as [[-> Hp]|(pre2 & -> & E2)].
    + exists []. split; [reflexivity|exact Hp].
    + destruct pre2 as [|c pre2]; [discriminate|].
      cbn in E2. injection E2 as <- E2.
      destruct (IHloop_run pre2 d post E2) as (pre' & -> & Hp).
      exists (pass ttw RCL_RET_OK false ++ Now t :: pre'). split.
      * rewrite <- app_assoc. reflexivity.
      * replace (h ++ pass ttw RCL_RET_OK false ++ Now t :: pre')
          with ((h ++ pass ttw RCL_RET_OK false ++ [Now t]) ++ pre');
          [exact Hp | rewrite <- !app_assoc; reflexivity].
Qed.

(** X11: in every call, each wait on the graph event comes directly after a
    poll of [rclcpp::ok()] that answered true: the loop never starts a wait
    once it has seen the context shut down. *)
Theorem every_wait_follows_a_true_poll (env : Env) (fuel : nat) (timeout : nanoseconds) :
  let (o, tr) := run (wait_for_service_nanoseconds env fuel timeout) in
  forall pre d post,
    tr = pre ++ WaitForGraphChange d :: post ->
    exists pre', pre = pre' ++ [Ok true] /\ rclcpp_ok env pre' = true.
Proof.
  pose proof (wait_for_service_call_run env fuel timeout) as H.
  destruct (run _) as [o tr]. cbn [fst snd] in H.
  intros pre d post E.
  assert (Hnone : forall tr', count is_wait tr' = 0%nat ->
            tr' <> pre ++ WaitForGraphChange d :: post).
  { intros tr' Hc ->. rewrite count_app, count_cons in Hc. cbn in Hc. lia. }
  destruct H as [Hd|r b Ha Hq Hr|Ha Hq|Ha Hq Ht|Ha Hq Ht Hb|d0 o es Ha Hq Ht Hb Hl];
    try (exfalso; revert E; apply Hnone; reflexivity).
  destruct (split_after_prefix is_wait (WaitForGraphChange d) eq_refl
              (before_loop env) eq_refl es pre post E) as (pre2 & -> & E2).
  destruct (loop_polls_before_wait _ _ _ _ _ _ _ Hl pre2 d post E2) as (pre' & -> & Hp).
  exists (before_loop env ++ pre'). split; [|exact Hp].
  rewrite <- app_assoc. reflexivity.
Qed.

Lemma every_wait_follows_a_true_poll_witness :
  run (wait_for_service_nanoseconds slow_discovery 5 1000) =
    (Returned true,
     [Now 0; Lock true; GetGraphEvent; ServerIsAvailable 0 false; Now 10;
      Ok true; WaitForGraphChange 990; CheckAndClear; ServerIsAvailable 0 false; Now 20;
      Ok true] ++
     WaitForGraphChange 980 :: [CheckAndClear; ServerIsAvailable 0 true]) /\
  exists pre',
    [Now 0; Lock true; GetGraphEvent; ServerIsAvailable 0 false; Now 10;
     Ok true; WaitForGraphChange 990; CheckAndClear; ServerIsAvailable 0 false; Now 20;
     Ok true] = pre' ++ [Ok true] /\
    rclcpp_ok slow_discovery pre' = true.
Proof.
  split; [reflexivity|].
  pose proof (every_wait_follows_a_true_poll slow_discovery 5 1000) as H.
  destruct (run (wait_for_service_nanoseconds slow_discovery 5 1000)) as [o tr] eqn:E.
  vm_compute in E. injection E as <- <-.
  apply (H _ 980 [CheckAndClear; ServerIsAvailable 0 true]). reflexivity.
Defined.

(** ** Waits without a deadline *)

Lemma blocked_for_negative (d : nanoseconds) :
  d < 0 -> forall signal, blocked_for d signal = signal.
Proof.
  intros Hd signal. unfold blocked_for.
  replace (d <? 0) with true by (symmetry; lia). reflexivity.
Qed.

Lemma do_while_keeps_waiting env timeout :
  timeout < 0 -> never_ready env -> never_shut_down env ->
  chrono_in_range env timeout ->
  forall fuel h ttw,
    exists es,
      do_while env fuel timeout (start_of env) ttw h = (OutOfFuel, es) /\
      count is_wait es = fuel.
Proof.
  intros Hneg Hnever Hup Hrange.
  induction fuel as [|fuel IH]; intros h ttw.
  - exists []. split; reflexivity.
  - rewrite do_while_S, Hup. cbn zeta. rewrite Hnever. cbn [fst snd].
    change (RCL_RET_OK =? RCL_RET_OK) with true. cbn iota.
    destruct (Hrange (h ++ [Ok true; WaitForGraphChange ttw; CheckAndClear;
                            ServerIsAvailable RCL_RET_OK false])) as [H1 H2].
    unfold chrono_sub. rewrite H1, H2.
    replace (timeout <? 0) with true by (symmetry; lia). rewrite orb_true_r.
    match goal with
    | |- context [do_while env fuel timeout (start_of env) ?d ?h'] =>
        destruct (IH h' d) as (es & Hes & Hw)
    end.
    rewrite Hes. eexists. split; [reflexivity|].
    cbn [app]. rewrite !count_cons. cbn. rewrite Hw. reflexivity.
Qed.

(** C9: in every call with a negative timeout (the clock being steady),
    (1) every wait on the graph event is given exactly
    [timeout - (now() - start)] for the most recent clock reading before it,
    never a clamped value; that duration is negative, and a wait given it
    has no deadline: it blocks until the next notification, however late,
    and for ever if none comes; (2) every pass of the loop that finds
    [rclcpp::ok()] true makes one such wait; and (3) while the server stays
    away and the context stays up (the node alive, the chrono arithmetic in
    range) the loop keeps going, one wait per pass: after [fuel] passes it
    is still running and has made [fuel] waits. *)
Theorem negative_timeout_waits_are_unbounded
    (env : Env) (fuel : nat) (timeout : nanoseconds) :
  timeout < 0 -> steady_clock env ->
  let (o, tr) := run (wait_for_service_nanoseconds env fuel timeout) in
  (forall pre d post,
     tr = pre ++ WaitForGraphChange d :: post ->
     d = timeout - (latest_reading pre 0 - start_of env) /\ d < 0 /\
     forall signal, blocked_for d signal = signal) /\
  count is_wait tr = count is_go tr /\
  (node_alive env -> never_ready env -> never_shut_down env ->
   chrono_in_range env timeout ->
   o = OutOfFuel /\ count is_wait tr = fuel).
Proof.
  intros Hneg Hs.
  pose proof (wait_for_service_call_run env fuel timeout) as H.
  pose proof (wait_for_service_unfold env fuel timeout) as Hrun.
  destruct (run _) as [o tr]. cbn [fst snd] in H.
  split; [|split].
  - intros pre d post ->.
    assert (Hd : d = timeout - (latest_reading pre 0 - start_of env) /\ d < 0).
    { eapply waits_unclamped_split. eapply call_waits_unclamped; eassumption. }
    destruct Hd as [Hd Hlt]. split; [exact Hd|]. split; [exact Hlt|].
    apply blocked_for_negative. exact Hlt.
  - destruct H as [Hd|r b Ha Hq Hr|Ha Hq|Ha Hq Ht|Ha Hq Ht Hb|d o es Ha Hq Ht Hb Hl];
      try reflexivity.
    rewrite !count_app. f_equal. eapply loop_waits_eq_goes; eassumption.
  - intros Halive Hnever Hup Hrange.
    cbn zeta in Hrun. unfold node_alive in Halive. rewrite Halive in Hrun.
    unfold first_answer in Hrun. rewrite Hnever in Hrun. cbn [fst snd] in Hrun.
    change (RCL_RET_OK =? RCL_RET_OK) with true in Hrun. cbn iota in Hrun.
    replace (timeout =? 0) with false in Hrun by (symmetry; lia).
    destruct (Hrange (before_check env ++ [ServerIsAvailable RCL_RET_OK false]))
      as [H1 H2].
    unfold chrono_sub in Hrun. rewrite H1, H2 in Hrun.
    match type of Hrun with
    | context [do_while env fuel timeout (start_of env) ?w ?h'] =>
        destruct (do_while_keeps_waiting env timeout Hneg Hnever Hup Hrange fuel h' w)
          as (es & Hes & Hw)
    end.
    rewrite Hes in Hrun. injection Hrun as -> ->.
    split; [reflexivity|].
    unfold before_check. cbn [app]. rewrite !count_cons. cbn. exact Hw.
Qed.

Lemma steady_clock_absent_server : steady_clock absent_server.
Proof.
  intros h h'. unfold absent_server, scripted. cbn [steady_clock_now].
  rewrite count_app.
  pose proof (Nat.min_le_compat_r (count is_now h) (count is_now h + count is_now h') 100
                ltac:(lia)).
  lia.
Qed.

Lemma chrono_in_range_absent_server : chrono_in_range absent_server (-1).
Proof.
  intros h. unfold start_of, absent_server, scripted.
  cbn [steady_clock_now].
  pose proof (Nat.le_min_r (count is_now h) 100) as Hh.
  pose proof (Nat.le_min_r (count is_now []) 100) as H0.
  set (a := Nat.min (count is_now h) 100) in *.
  set (b := Nat.min (count is_now []) 100) in *.
  split; apply in_int64_small; lia.
Qed.

Lemma negative_timeout_waits_are_unbounded_witness :
  -1 < 0 /\ steady_clock absent_server /\ node_alive absent_server /\
  never_ready absent_server /\ never_shut_down absent_server /\
  chrono_in_range absent_server (-1) /\
  run (wait_for_service_nanoseconds absent_server 2 (-1)) =
    (OutOfFuel,
     [Now 0; Lock true; GetGraphEvent; ServerIsAvailable 0 false; Now 10;
      Ok true; WaitForGraphChange (-11); CheckAndClear; ServerIsAvailable 0 false;
      Now 20; Ok true] ++
     WaitForGraphChange (-21) :: [CheckAndClear; ServerIsAvailable 0 false; Now 30]) /\
  (-21 = -1 - (latest_reading
                 [Now 0; Lock true; GetGraphEvent; ServerIsAvailable 0 false; Now 10;
                  Ok true; WaitForGraphChange (-11); CheckAndClear;
                  ServerIsAvailable 0 false; Now 20; Ok true] 0
               - start_of absent_server) /\
   -21 < 0 /\
   forall signal, blocked_for (-21) signal = signal) /\
  count is_wait
    ([Now 0; Lock true; GetGraphEvent; ServerIsAvailable 0 false; Now 10;
      Ok true; WaitForGraphChange (-11); CheckAndClear; ServerIsAvailable 0 false;
      Now 20; Ok true] ++
     WaitForGraphChange (-21) :: [CheckAndClear; ServerIsAvailable 0 false; Now 30]) = 2%nat.
Proof.
  split; [lia|]. split; [exact steady_clock_absent_server|].
  split; [reflexivity|]. split; [intros h; reflexivity|].
  split; [intros h; reflexivity|].
  split; [exact chrono_in_range_absent_server|].
  split; [reflexivity|].
  pose proof (negative_timeout_waits_are_unbounded absent_server 2 (-1)
                ltac:(lia) steady_clock_absent_server) as H.
  destruct (run (wait_for_service_nanoseconds absent_server 2 (-1))) as [o tr] eqn:E.
  vm_compute in E. injection E as <- <-.
  destruct H as (Hwait & _ & Hlive).
  split.
  - apply (Hwait _ (-21) [CheckAndClear; ServerIsAvailable 0 false; Now 30]). reflexivity.
  - apply Hlive.
    + reflexivity.
    + intros h. reflexivity.
    + intros h. reflexivity.
    + exact chrono_in_range_absent_server.
Defined.
